(** * Record linkage of a scraped movie catalog against a searchable database

    A shallow embedding of the decision logic of the repository's scripts:

    - [douban_to_tmdb.py]: [tmdb_search] (the resolver: a cascade of
      searches, a genre filter and five matching tiers) and the loop of
      [main] that drives it over the catalog;
    - [merge_yaml.py]: [merge_data] (the join of the catalog with the
      resolved identifiers).

    Python values are modelled by the types the scripts handle them at.
    Strings are sequences of characters with code points below 256;
    exceptions are the [Err] results of an error monad; the search endpoint
    is an oracle that answers each request from the history of the requests
    made so far, and the requests issued are recorded in a log. *)

From Stdlib Require Import ZArith Bool List Ascii String DecimalString Lia.
From stdpp Require Import base option list strings gmap.

Local Open Scope string_scope.
Local Open Scope Z_scope.

(** ** Python strings, exceptions and truthiness *)

Module Py.

(** [str.isspace] on the code points below 256: TAB..CR, FS..US, SPACE,
    NEL and NBSP. *)
Definition isspace (c : ascii) : bool :=
  let n := N_of_ascii c in
  ((9 <=? n) && (n <=? 13) || (28 <=? n) && (n <=? 32)
   || (n =? 133) || (n =? 160))%N.

(** [str.lower] on one code point below 256: A..Z and the Latin-1 capitals
    (all of 192..222 but the multiplication sign 215) move up by 32. *)
Definition lower_char (c : ascii) : ascii :=
  let n := N_of_ascii c in
  if ((65 <=? n) && (n <=? 90)
      || (192 <=? n) && (n <=? 222) && negb (n =? 215))%N
  then ascii_of_N (n + 32) else c.

Fixpoint lower (s : string) : string :=
  match s with
  | EmptyString => EmptyString
  | String c s' => String (lower_char c) (lower s')
  end.

(** [s.lstrip()] and [s.lstrip(chars)], the characters given by a
    predicate. *)
Fixpoint lstrip_by (p : ascii -> bool) (s : string) : string :=
  match s with
  | EmptyString => EmptyString
  | String c s' => if p c then lstrip_by p s' else s
  end.

Fixpoint rstrip_by (p : ascii -> bool) (s : string) : string :=
  match s with
  | EmptyString => EmptyString
  | String c s' =>
      match rstrip_by p s' with
      | EmptyString => if p c then EmptyString else String c EmptyString
      | r => String c r
      end
  end.

(** [s.strip()] *)
Definition strip (s : string) : string :=
  rstrip_by isspace (lstrip_by isspace s).

(** [s.lstrip('/')] *)
Definition lstrip_slash (s : string) : string :=
  lstrip_by (fun c => Ascii.eqb c "/") s.

(** [s[:n]] *)
Fixpoint slice_to (n : nat) (s : string) : string :=
  match n, s with
  | S n', String c s' => String c (slice_to n' s')
  | _, _ => EmptyString
  end.

(** [a in b] on strings *)
Fixpoint contains (b a : string) : bool :=
  String.prefix a b
  || match b with
     | EmptyString => false
     | String _ b' => contains b' a
     end.

(** [str(n)] on an integer *)
Definition str (n : Z) : string := NilZero.string_of_int (Z.to_int n).

(** Truthiness of a string, of a list and of an optional integer. *)
Definition truthy_str (s : string) : bool :=
  match s with EmptyString => false | _ => true end.

Definition truthy_list {A} (l : list A) : bool :=
  match l with [] => false | _ => true end.

Definition truthy_int (n : option Z) : bool :=
  match n with Some z => negb (z =? 0) | None => false end.

(** The exceptions the scripts can meet. [RequestError] stands for
    whatever [requests.get(...).json()] raises: a connection error, a
    timeout, a body that is not JSON. *)
Inductive exn : Type :=
| AttributeError
| TypeError
| KeyError
| RequestError
| SystemExit (code : Z).

Inductive result (A : Type) : Type :=
| Ok (a : A)
| Err (e : exn).
Arguments Ok {A} a.
Arguments Err {A} e.

Definition rbind {A B} (r : result A) (k : A -> result B) : result B :=
  match r with
  | Ok a => k a
  | Err e => Err e
  end.

(** The first and the last character of a string, when it has one. *)
Definition first_char (s : string) : option ascii :=
  match s with EmptyString => None | String c _ => Some c end.

Fixpoint last_char (s : string) : option ascii :=
  match s with
  | EmptyString => None
  | String c EmptyString => Some c
  | String _ s' => last_char s'
  end.

End Py.

Export Py.

Declare Scope result_scope.
Delimit Scope result_scope with result.
Notation "x <- r ;; k" := (rbind r (fun x => k))
  (at level 100, r at next level, right associativity) : result_scope.

(** ** [douban_to_tmdb.py] *)

Module Tmdb.

(** *** Data *)

(** A key of a JSON object read by the script: missing, [null], or
    holding a value of the type the endpoint documents for it. *)
Inductive field (A : Type) : Type :=
| Absent
| Null
| Val (a : A).
Arguments Absent {A}.
Arguments Null {A}.
Arguments Val {A} a.

(** One entry of the ["results"] array. The script reads these five keys
    and no other. *)
Record movie : Type := Movie {
  m_id : option Z;
  m_title : field string;
  m_original_title : field string;
  m_release_date : field string;
  m_genre_ids : field (list Z)
}.

(** A request as [search] builds it: the text of [query=] and the value
    of [&year=] when that parameter is added. *)
Record request : Type := Request {
  req_query : string;
  req_year : option Z
}.

(** What [requests.get(url, timeout=15).json()] gives back: an exception,
    or a JSON object with or without the key ["results"]. *)
Inductive response : Type :=
| Raises (e : exn)
| Json (results : option (list movie)).

(** The endpoint: its answer to a request may depend on the requests made
    before it (oldest first). *)
Definition provider : Type := list request -> request -> response.

(** Computations that call the endpoint: the log of the requests issued
    so far is threaded through, and an exception stops the computation. *)
Definition M (A : Type) : Type := list request -> result A * list request.

Definition ret {A} (a : A) : M A := fun log => (Ok a, log).

Definition bind {A B} (c : M A) (k : A -> M B) : M B :=
  fun log =>
    match c log with
    | (Ok a, log') => k a log'
    | (Err e, log') => (Err e, log')
    end.

Definition lift {A} (r : result A) : M A := fun log => (r, log).

Declare Scope io_scope.
Delimit Scope io_scope with io.
Notation "x <<- c ;; k" := (bind c (fun x => k))
  (at level 100, c at next level, right associativity) : io_scope.

(** *** Reading a candidate *)

(** [d.get(key, default)]: [None] stands for Python's [None]. *)
Definition get {A} (f : field A) (default : A) : option A :=
  match f with
  | Absent => Some default
  | Null => None
  | Val a => Some a
  end.

(** [v.strip().lower()] *)
Definition strip_lower (v : option string) : result string :=
  match v with
  | Some s => Ok (lower (strip s))
  | None => Err AttributeError
  end.

(** [v[:4]] *)
Definition slice4 (v : option string) : result string :=
  match v with
  | Some s => Ok (slice_to 4 s)
  | None => Err TypeError
  end.

(** [10767 in genres or 10770 in genres or 99 in genres] *)
Definition excluded_genre (v : option (list Z)) : result bool :=
  match v with
  | Some genres =>
      Ok (bool_decide (10767 ∈ genres) || bool_decide (10770 ∈ genres)
          || bool_decide (99 ∈ genres))
  | None => Err TypeError
  end.

(** [movie["id"]] *)
Definition movie_id (m : movie) : result (option Z) :=
  match m_id m with
  | Some i => Ok (Some i)
  | None => Err KeyError
  end.

(** [str(year)] *)
Definition str_year (year : option Z) : string :=
  match year with
  | Some y => str y
  | None => "None"
  end.

(** [title_en.strip().lstrip('/').strip()] *)
Definition clean_title_en (title_en : string) : string :=
  strip (lstrip_slash (strip title_en)).

(** *** The genre filter (lines 64-74) *)

Fixpoint filter_movies (results : list movie) : result (list movie) :=
  match results with
  | [] => Ok []
  | movie :: rest =>
      (skip <- excluded_genre (get (m_genre_ids movie) []) ;;
       kept <- filter_movies rest ;;
       Ok (if skip then kept else movie :: kept))%result
  end.

Definition movie_results_of (results : list movie) : result (list movie) :=
  (movie_results <- filter_movies results ;;
   Ok (if negb (truthy_list movie_results) then results
       else movie_results))%result.

(** *** The matching tiers (lines 87-119)

    Each loop gives [Ok (Some id)] when it returns from the function,
    [Ok None] when it runs to its end, and [Err] when it raises. *)

Section Tiers.
Variables (title_cn title_en : string) (year : option Z).

Definition title_eq (tmdb_title tmdb_original : string) : bool :=
  String.eqb tmdb_title (lower (strip title_cn))
  || String.eqb tmdb_original (lower (strip title_en)).

Definition title_in (tmdb_title tmdb_original : string) : bool :=
  contains tmdb_title (lower (strip title_cn))
  || contains tmdb_original (lower (strip title_en)).

Fixpoint tier1 (movie_results : list movie) : result (option Z) :=
  match movie_results with
  | [] => Ok None
  | movie :: rest =>
      (tmdb_title <- strip_lower (get (m_title movie) "") ;;
       tmdb_original <- strip_lower (get (m_original_title movie) "") ;;
       tmdb_year <- slice4 (get (m_release_date movie) "") ;;
       if String.eqb tmdb_year (str_year year)
          && title_eq tmdb_title tmdb_original
       then movie_id movie
       else tier1 rest)%result
  end.

Fixpoint tier2 (movie_results : list movie) : result (option Z) :=
  match movie_results with
  | [] => Ok None
  | movie :: rest =>
      (tmdb_year <- slice4 (get (m_release_date movie) "") ;;
       if String.eqb tmdb_year (str_year year)
       then movie_id movie
       else tier2 rest)%result
  end.

Fixpoint tier3 (movie_results : list movie) : result (option Z) :=
  match movie_results with
  | [] => Ok None
  | movie :: rest =>
      (tmdb_title <- strip_lower (get (m_title movie) "") ;;
       tmdb_original <- strip_lower (get (m_original_title movie) "") ;;
       if title_eq tmdb_title tmdb_original
       then movie_id movie
       else tier3 rest)%result
  end.

Fixpoint tier4 (movie_results : list movie) : result (option Z) :=
  match movie_results with
  | [] => Ok None
  | movie :: rest =>
      (tmdb_title <- strip_lower (get (m_title movie) "") ;;
       tmdb_original <- strip_lower (get (m_original_title movie) "") ;;
       if title_in tmdb_title tmdb_original
       then movie_id movie
       else tier4 rest)%result
  end.

(** [movie_results[0]["id"] if movie_results else None] *)
Definition tier5 (movie_results : list movie) : result (option Z) :=
  match movie_results with
  | [] => Ok None
  | movie :: _ => movie_id movie
  end.

(** Falling through to the next loop when one runs to its end. *)
Definition or_else (r next : result (option Z)) : result (option Z) :=
  match r with
  | Ok None => next
  | _ => r
  end.

Definition match_tiers (movie_results : list movie) : result (option Z) :=
  or_else
    (if truthy_int year
     then or_else (tier1 movie_results) (tier2 movie_results)
     else Ok None)
    (or_else (tier3 movie_results)
       (or_else (tier4 movie_results) (tier5 movie_results))).

End Tiers.

(** Lines 61-119: what [tmdb_search] does with the [results] of the
    searches. The printing of the first three candidates (lines 76-85)
    reads every key with [get] and slices [release_date] under a guard for
    [None], so it raises nothing on a [movie]; it is left out. *)
Definition pick_match (title_cn title_en : string) (year : option Z)
    (results : list movie) : result (option Z) :=
  if negb (truthy_list results) then Ok None
  else
    (movie_results <- movie_results_of results ;;
     match_tiers title_cn title_en year movie_results)%result.

(** A record of the catalog, as the crawler writes it: the titles are
    strings (the foreign one empty when the page has none) and the year
    is an integer or [None]. *)
Record catalog_movie : Type := CatalogMovie {
  rank : Z;
  title_cn : string;
  title_en : string;
  year : option Z
}.

(** [f"{title_cn} / {title_en} ({year})"] *)
Definition miss_text (movie : catalog_movie) : string :=
  title_cn movie ++ " / " ++ title_en movie
    ++ " (" ++ str_year (year movie) ++ ")".

(** *** The search closure and the cascade (lines 35-59) *)

Section Resolver.
Variable P : provider.

(** [search(title, year=None)]: one request to the endpoint. The
    parameter [&year=] is added under [if year:]; an answer without the
    key ["results"] reads as the empty list. *)
Definition search (title : string) (year : option Z) : M (list movie) :=
  fun log =>
    let req := Request title (if truthy_int year then year else None) in
    (match P log req with
     | Raises e => Err e
     | Json None => Ok []
     | Json (Some results) => Ok results
     end, (log ++ [req])%list).

(** Lines 44-59: the searches, up to the rebinding of [results] that
    the rest of the function reads. *)
Definition cascade (title_cn title_en : string) (year : option Z)
  : M (list movie) :=
  (results <<- (if truthy_int year then search title_cn year
                else search title_cn None) ;;
   results <<- (if negb (truthy_list results) && truthy_str title_en
                then
                  let clean_title_en := clean_title_en title_en in
                  if truthy_str clean_title_en
                  then (if truthy_int year
                        then search clean_title_en year
                        else search clean_title_en None)
                  else ret results
                else ret results) ;;
   if negb (truthy_list results)
   then
     results <<- search title_cn None ;;
     if negb (truthy_list results) && truthy_str title_en
     then
       let clean_title_en := clean_title_en title_en in
       if truthy_str clean_title_en
       then search clean_title_en None
       else ret results
     else ret results
   else ret results)%io.

Definition tmdb_search (title_cn title_en : string) (year : option Z)
  : M (option Z) :=
  (results <<- cascade title_cn title_en year ;;
   lift (pick_match title_cn title_en year results))%io.

(** *** The batch driver (lines 145-182) *)

(** The loop over the catalog, with [matched_movies] and [misses] as
    accumulators; a matched record carries its [tmdb_id]. *)
Fixpoint main_loop (movies : list catalog_movie)
    (matched_movies : list (catalog_movie * Z)) (misses : list string)
  : M (list (catalog_movie * Z) * list string) :=
  match movies with
  | [] => ret (matched_movies, misses)
  | movie :: rest =>
      (tmdb_id <<- tmdb_search (title_cn movie) (title_en movie)
                     (year movie) ;;
       match tmdb_id with
       | Some i =>
           if truthy_int tmdb_id
           then main_loop rest (matched_movies ++ [(movie, i)])%list misses
           else main_loop rest matched_movies
                  (misses ++ [miss_text movie])%list
       | None =>
           main_loop rest matched_movies
             (misses ++ [miss_text movie])%list
       end)%io
  end.

(** [main], from the value of [load_douban_data()] (lines 154-157) to the
    end of the loop: [None] when the catalog could not be loaded. The
    files are written after the loop, from [matched_movies] and
    [misses]. *)
Definition main (movies : option (list catalog_movie))
  : M (list (catalog_movie * Z) * list string) :=
  match movies with
  | None | Some [] => lift (Err (SystemExit 1))
  | Some movies => main_loop movies [] []
  end.

End Resolver.

(** *** The cascade in the words of the specification

    The specification describes the cascade as a fixed list of attempts,
    tried in order up to the first one that yields candidates. These two
    definitions follow that description; [cascade] above follows the
    code. *)

(** The attempts of a query: native title and cleaned foreign title under
    the year constraint, then the same two without it. The foreign ones
    exist when the foreign title is present and cleans to a non-empty
    text. *)
Definition spec_attempts (title_cn title_en : string) (year : option Z)
  : list request :=
  let constraint := if truthy_int year then year else None in
  let clean := clean_title_en title_en in
  let foreign (y : option Z) : list request :=
    if truthy_str title_en && truthy_str clean then [Request clean y]
    else [] in
  ([Request title_cn constraint] ++ foreign constraint
   ++ [Request title_cn None] ++ foreign None)%list.

(** The candidates an answer holds. *)
Definition answer (r : response) : result (list movie) :=
  match r with
  | Raises e => Err e
  | Json None => Ok []
  | Json (Some results) => Ok results
  end.

(** Attempts tried in order; the first non-empty sequence is the result,
    and no attempt is made after it. *)
Fixpoint spec_cascade (P : provider) (attempts : list request)
  : M (list movie) :=
  match attempts with
  | [] => ret []
  | req :: rest =>
      fun log =>
        match answer (P log req) with
        | Err e => (Err e, (log ++ [req])%list)
        | Ok [] => spec_cascade P rest (log ++ [req])%list
        | Ok results => (Ok results, (log ++ [req])%list)
        end
  end.

(** An attempt is reached when every attempt before it was answered with
    no candidate; [pre] are the attempts before it, [log] the history at
    the start of the cascade. *)
Definition reached (P : provider) (log pre : list request) : Prop :=
  forall p r q, pre = (p ++ r :: q)%list ->
                answer (P (log ++ p)%list r) = Ok [].

(** *** Well-formed candidates *)

Definition not_null {A} (f : field A) : bool :=
  match f with Null => false | _ => true end.

(** The candidate has an id, and none of the four keys read with a
    default is [null]. *)
Definition well_formed (m : movie) : bool :=
  match m_id m with Some _ => true | None => false end
  && not_null (m_title m) && not_null (m_original_title m)
  && not_null (m_release_date m) && not_null (m_genre_ids m).

(** A provider that never raises and only sends well-formed candidates. *)
Definition well_behaved (P : provider) : Prop :=
  forall log req,
    match P log req with
    | Raises _ => False
    | Json None => True
    | Json (Some results) => forallb well_formed results = true
    end.

(** The value a key is read at: its default when it is missing. *)
Definition with_default {A} (f : field A) (default : A) : field A :=
  match f with
  | Absent => Val default
  | _ => f
  end.

Definition fill_defaults (m : movie) : movie :=
  {| m_id := m_id m;
     m_title := with_default (m_title m) "";
     m_original_title := with_default (m_original_title m) "";
     m_release_date := with_default (m_release_date m) "";
     m_genre_ids := with_default (m_genre_ids m) [] |}.

(** The same provider with every candidate rewritten by [f]. *)
Definition map_provider (f : movie -> movie) (P : provider) : provider :=
  fun log req =>
    match P log req with
    | Json (Some results) => Json (Some (map f results))
    | r => r
    end.

(** The text a (non-null) field is compared at, and the tests of the
    tiers on one candidate. *)
Definition text (f : field string) : string :=
  match f with Val s => s | _ => "" end.

Definition carries_excluded_genre (m : movie) : bool :=
  match m_genre_ids m with
  | Val genres =>
      bool_decide (10767 ∈ genres) || bool_decide (10770 ∈ genres)
      || bool_decide (99 ∈ genres)
  | _ => false
  end.

Definition year_matches (year : option Z) (m : movie) : bool :=
  String.eqb (slice_to 4 (text (m_release_date m))) (str_year year).

Definition title_matches (title_cn title_en : string) (m : movie) : bool :=
  title_eq title_cn title_en
    (lower (strip (text (m_title m))))
    (lower (strip (text (m_original_title m)))).

Definition title_year_matches (title_cn title_en : string)
    (year : option Z) (m : movie) : bool :=
  year_matches year m && title_matches title_cn title_en m.

Definition title_contains (title_cn title_en : string) (m : movie) : bool :=
  title_in title_cn title_en
    (lower (strip (text (m_title m))))
    (lower (strip (text (m_original_title m)))).

(** The id of the first candidate that passes a test, if there is one. *)
Definition first_match (test : movie -> bool) (movie_results : list movie)
  : result (option Z) :=
  match List.find test movie_results with
  | Some m => movie_id m
  | None => Ok None
  end.

(** The candidates with no excluded genre, or all of them when that
    leaves none. *)
Definition kept_movies (results : list movie) : list movie :=
  match List.filter (fun m => negb (carries_excluded_genre m)) results with
  | [] => results
  | kept => kept
  end.

End Tmdb.

(** ** [merge_yaml.py] *)

Module Merge.

Section MergeData.
(** The type of the ratings: floats, which the merge only copies. *)
Context {float : Type}.

(** An entry of [tmdb_movie] in the collection file. *)
Record kometa_movie : Type := KometaMovie {
  k_id : Z;
  k_title : string;
  k_index : Z
}.

(** A value of [tmdb_mapping]. *)
Record tmdb_info : Type := TmdbInfo {
  info_tmdb_id : Z;
  info_index : Z
}.

Record douban_movie : Type := DoubanMovie {
  rank : Z;
  title_cn : string;
  title_en : string;
  year : option Z;
  rating : option float;
  director : string;
  actors : string
}.

Record merged_movie : Type := MergedMovie {
  merged_rank : Z;
  merged_title_cn : string;
  merged_title_en : string;
  merged_year : option Z;
  merged_rating : option float;
  merged_director : string;
  merged_actors : string;
  merged_tmdb_id : option Z
}.

(** Lines 22-28. [None] stands for a [tmdb_data] that is falsy or has
    no key ["collections"]. *)
Definition build_mapping (tmdb_data : option (list kometa_movie))
  : gmap string tmdb_info :=
  match tmdb_data with
  | None => ∅
  | Some tmdb_movie =>
      fold_left
        (fun tmdb_mapping movie =>
           <[k_title movie := TmdbInfo (k_id movie) (k_index movie)]>
             tmdb_mapping)
        tmdb_movie ∅
  end.

(** Lines 30-50. *)
Definition merge_data (douban_movies : list douban_movie)
    (tmdb_data : option (list kometa_movie)) : list merged_movie :=
  let tmdb_mapping := build_mapping tmdb_data in
  map
    (fun movie =>
       let tmdb_info := tmdb_mapping !! title_cn movie in
       {| merged_rank := rank movie;
          merged_title_cn := title_cn movie;
          merged_title_en := title_en movie;
          merged_year := year movie;
          merged_rating := rating movie;
          merged_director := director movie;
          merged_actors := actors movie;
          merged_tmdb_id := info_tmdb_id <$> tmdb_info |})
    douban_movies.

End MergeData.

Arguments douban_movie : clear implicits.
Arguments merged_movie : clear implicits.

End Merge.

(** ** [build_kometa_yaml] of [douban_to_tmdb.py] (lines 121-143) *)

Module Kometa.
Import Tmdb.

(** The list [tmdb_movie] of the collection document: one entry for each
    matched movie whose [tmdb_id] is truthy, in order. The function then
    writes the document and prints the length of this list. *)
Definition build_kometa_yaml (matched_movies : list (catalog_movie * Z))
  : list Merge.kometa_movie :=
  flat_map
    (fun movie : catalog_movie * Z =>
       if truthy_int (Some (snd movie))
       then [Merge.KometaMovie (snd movie) (title_cn (fst movie))
               (rank (fst movie))]
       else [])
    matched_movies.

End Kometa.

(** ** [save_merged_yaml] and [main] of [merge_yaml.py] *)

Module MergeMain.
Import Merge.

Section Main.
Context {float : Type}.

(** Line 58 and line 96: [len([m for m in merged_movies if
    m.get("tmdb_id")])]. *)
Definition matched_count (merged_movies : list (merged_movie float)) : nat :=
  length (List.filter (fun m => truthy_int (merged_tmdb_id m)) merged_movies).

(** How [main] ends: [sys.exit(1)] before anything is written, a division
    by zero in the match rate of line 101 once the merged file is saved, or
    the end of the function. [saved] is the list handed to
    [save_merged_yaml]; the counts are those printed. *)
Inductive outcome : Type :=
| Exit (code : Z)
| ZeroDivisionError (saved : list (merged_movie float))
| Done (saved : list (merged_movie float)) (total_count matched_count : nat).

(** Lines 68-101. [douban_data] is the list under the keys of the catalog
    document, [None] when [load_yaml_file] gave a falsy value; [tmdb_data]
    is the list of the collection, [None] when its file gave a falsy value
    or has no key ["collections"]. *)
Definition main (douban_data : option (list (douban_movie float)))
    (tmdb_data : option (list kometa_movie)) : outcome :=
  match douban_data with
  | None => Exit 1
  | Some douban_movies =>
      let merged_movies := merge_data douban_movies tmdb_data in
      let total_count := length merged_movies in
      let matched_count := matched_count merged_movies in
      if Nat.eqb total_count 0 then ZeroDivisionError merged_movies
      else Done merged_movies total_count matched_count
  end.

End Main.

End MergeMain.

(** ** [douban_top250_crawler.py] *)

Module Crawler.

(** [\d] on the code points below 256: the digits 0 to 9. *)
Definition isdigit (c : ascii) : bool :=
  let n := N_of_ascii c in ((48 <=? n) && (n <=? 57))%N.

(** The pattern [(\d{4})] matches at the start of the text. *)
Definition starts_with_year (text : string) : bool :=
  match text with
  | String a (String b (String c (String d _))) =>
      isdigit a && isdigit b && isdigit c && isdigit d
  | _ => false
  end.

(** Lines 57-58: [re.search(r"(\d{4})", bd_text)] and the group of the
    match, the empty text when there is none. The search tries each start
    from the left. *)
Fixpoint find_year (bd_text : string) : string :=
  match bd_text with
  | EmptyString => EmptyString
  | String _ rest =>
      if starts_with_year bd_text then slice_to 4 bd_text
      else find_year rest
  end.

(** [int(s)] on a text of digits, most significant first. *)
Definition digit_value (c : ascii) : Z := Z.of_N (N_of_ascii c) - 48.

Fixpoint int_digits (acc : Z) (s : string) : Z :=
  match s with
  | EmptyString => acc
  | String c s' => int_digits (10 * acc + digit_value c) s'
  end.

(** Line 125: [int(movie['year']) if movie['year'] else None], on a year
    found by [find_year]. *)
Definition saved_year (year : string) : option Z :=
  if truthy_str year then Some (int_digits 0 year) else None.

(** Lines 156-159: the number of movies of each year, the years as the
    crawler holds them. *)
Definition year_count (years : list string) : gmap string nat :=
  fold_left
    (fun year_count year =>
       <[year := (default 0%nat (year_count !! year) + 1)%nat]> year_count)
    years ∅.

End Crawler.

(** ** The outcomes of the batch driver, entry by entry *)

Module Batch.
Import Tmdb.

(** What the test [if tmdb_id:] of line 174 makes of the value returned
    for an entry: the id when it is truthy, a miss ([None]) otherwise. *)
Definition outcome_of (tmdb_id : option Z) : option Z :=
  if truthy_int tmdb_id then tmdb_id else None.

(** The outcomes of the entries in the order of the catalog, each from the
    call of [tmdb_search] for that entry at the history the calls before
    it left; the list stops at an entry whose call raises. *)
Fixpoint entry_outcomes (P : provider) (movies : list catalog_movie)
    (log : list request) : list (option Z) :=
  match movies with
  | [] => []
  | movie :: rest =>
      match tmdb_search P (title_cn movie) (title_en movie) (year movie)
              log with
      | (Ok tmdb_id, log') =>
          outcome_of tmdb_id :: entry_outcomes P rest log'
      | (Err _, _) => []
      end
  end.

(** The entries with an id, each with its id, and the texts of the entries
    without, both in the order of the catalog. *)
Definition matched_of (movies : list catalog_movie)
    (outcomes : list (option Z)) : list (catalog_movie * Z) :=
  flat_map
    (fun entry : catalog_movie * option Z =>
       match snd entry with
       | Some i => [(fst entry, i)]
       | None => []
       end)
    (zip movies outcomes).

Definition misses_of (movies : list catalog_movie)
    (outcomes : list (option Z)) : list string :=
  flat_map
    (fun entry : catalog_movie * option Z =>
       match snd entry with
       | Some _ => []
       | None => [miss_text (fst entry)]
       end)
    (zip movies outcomes).

End Batch.

(** ** Inputs used in the examples *)

Module Samples.
Import Tmdb.

Definition candidate (id : Z) (title original_title release_date : string)
    (genre_ids : list Z) : movie :=
  Movie (Some id) (Val title) (Val original_title) (Val release_date)
    (Val genre_ids).

(** A provider that answers every request with the same candidates. *)
Definition always (results : list movie) : provider :=
  fun _ _ => Json (Some results).

(** A provider that knows one film, under its native title and without
    year constraint. *)
Definition by_request (results : list movie) : provider :=
  fun _ req =>
    if String.eqb (req_query req) "X" && bool_decide (req_year req = None)
    then Json (Some results) else Json None.

(** A provider that answers by the number of requests made before. *)
Definition by_history (n : nat) (results : list movie) : provider :=
  fun log _ =>
    if bool_decide (length log = n) then Json (Some results) else Json None.

(** A provider that is down. *)
Definition down : provider := fun _ _ => Raises RequestError.

End Samples.

(** ** Facts on the string operations *)

Import Tmdb.

Lemma contains_empty (b : string) : contains b "" = true.
Proof. destruct b; reflexivity. Qed.

Lemma first_char_lstrip_by (p : ascii -> bool) (s : string) (c : ascii) :
  first_char (lstrip_by p s) = Some c -> p c = false.
Proof.
  induction s as [|a s IH]; simpl; [discriminate|].
  destruct (p a) eqn:Hp; [exact IH|].
  simpl. intros [= <-]. exact Hp.
Qed.

Lemma rstrip_by_first_char (p : ascii -> bool) (s : string) (c : ascii) :
  first_char (rstrip_by p s) = Some c -> first_char s = Some c.
Proof.
  destruct s as [|a s]; simpl; [discriminate|].
  destruct (rstrip_by p s); [destruct (p a)|]; simpl; congruence.
Qed.

Lemma last_char_rstrip_by (p : ascii -> bool) (s : string) (c : ascii) :
  last_char (rstrip_by p s) = Some c -> p c = false.
Proof.
  induction s as [|a s IH]; simpl; [discriminate|].
  destruct (rstrip_by p s) as [|b r] eqn:Hr.
  - destruct (p a) eqn:Hp; simpl; [discriminate|].
    intros [= <-]. exact Hp.
  - intros H. apply IH. exact H.
Qed.

(** [strip] leaves no white space at either end. *)
Lemma strip_first_char (s : string) (c : ascii) :
  first_char (strip s) = Some c -> isspace c = false.
Proof.
  unfold strip. intros H.
  apply rstrip_by_first_char in H.
  exact (first_char_lstrip_by _ _ _ H).
Qed.

Lemma strip_last_char (s : string) (c : ascii) :
  last_char (strip s) = Some c -> isspace c = false.
Proof. unfold strip. apply last_char_rstrip_by. Qed.

(** X9: the cleaned foreign title has no white space at either end,
    whatever the title. *)
Lemma clean_title_en_no_outer_space (title_en : string) (c : ascii) :
  first_char (clean_title_en title_en) = Some c
  \/ last_char (clean_title_en title_en) = Some c ->
  isspace c = false.
Proof.
  unfold clean_title_en.
  intros [H|H]; [exact (strip_first_char _ _ H)|exact (strip_last_char _ _ H)].
Qed.

(** C8: the cleaned foreign title is meant to begin with no slash. On a
    title whose leading slash is followed by white space and another slash
    the code leaves that second slash in front: the slashes are removed in
    one pass, between the two [strip]. *)
Theorem clean_title_en_leaves_slash :
  clean_title_en "/ /x" = "/x"
  /\ first_char (clean_title_en "/ /x") = Some "/"%char.
Proof. split; reflexivity. Qed.

(** ** Facts on the tiers *)

Lemma movie_id_not_none (m : movie) : movie_id m <> Ok None.
Proof. unfold movie_id. destruct (m_id m); discriminate. Qed.

(** When the exact-title loop runs to its end, it has read the titles of
    every candidate without raising. *)
Lemma tier3_none_reads (title_cn title_en : string) (m : movie)
    (rest : list movie) :
  tier3 title_cn title_en (m :: rest) = Ok None ->
  exists tmdb_title tmdb_original,
    strip_lower (get (m_title m) "") = Ok tmdb_title
    /\ strip_lower (get (m_original_title m) "") = Ok tmdb_original.
Proof.
  simpl. intros H.
  destruct (strip_lower (get (m_title m) "")) as [t|]; [|discriminate].
  destruct (strip_lower (get (m_original_title m) "")) as [o|];
    [|discriminate].
  eauto.
Qed.

(** C10: with an empty foreign title, when tiers 1 to 3 find nothing on a
    non-empty candidate sequence, the substring tier returns at its first
    candidate, because the empty text is contained in every original
    title. It returns what the fallback would return, and the fallback is
    not reached: tier 4 does not run to its end. *)
Theorem tier4_empty_foreign_title (title_cn : string) (year : option Z)
    (first : movie) (rest : list movie) :
  (if truthy_int year
   then or_else (tier1 title_cn "" year (first :: rest))
          (tier2 year (first :: rest))
   else Ok None) = Ok None ->
  tier3 title_cn "" (first :: rest) = Ok None ->
  tier4 title_cn "" (first :: rest) = movie_id first
  /\ tier4 title_cn "" (first :: rest) <> Ok None
  /\ tier5 (first :: rest) = movie_id first
  /\ match_tiers title_cn "" year (first :: rest) = movie_id first.
Proof.
  intros H12 H3.
  assert (H4 : tier4 title_cn "" (first :: rest) = movie_id first).
  { destruct (tier3_none_reads _ _ _ _ H3) as (t & o & Ht & Ho).
    simpl. rewrite Ht, Ho. simpl.
    unfold title_in. simpl. rewrite contains_empty, orb_true_r.
    reflexivity. }
  split; [exact H4|]. split; [rewrite H4; apply movie_id_not_none|].
  split; [reflexivity|].
  unfold match_tiers. rewrite H12, H3, H4. simpl.
  destruct (movie_id first) as [[i|]|e] eqn:Hid; try reflexivity.
Qed.

Lemma tier4_empty_foreign_title_witness :
  let first := Samples.candidate 7 "Y" "Z" "1990-05-01" [] in
  tier3 "X" "" [first] = Ok None
  /\ tier4 "X" "" [first] = Ok (Some 7)
  /\ match_tiers "X" "" (Some 2001) [first] = Ok (Some 7).
Proof.
  intros first.
  assert (H12 : (if truthy_int (Some 2001)
                 then or_else (tier1 "X" "" (Some 2001) [first])
                        (tier2 (Some 2001) [first])
                 else Ok None) = Ok None) by reflexivity.
  assert (H3 : tier3 "X" "" [first] = Ok None) by reflexivity.
  destruct (tier4_empty_foreign_title "X" (Some 2001) first [] H12 H3)
    as (H4 & _ & _ & Hm).
  split; [exact H3|]. split; [exact H4|exact Hm].
Defined.

(** ** The cascade *)

(** One answer of the provider, split into the cases the cascade
    distinguishes. *)
Ltac split_answer :=
  match goal with
  | |- context [?P ?log ?req] =>
      match type of (P log req) with
      | response =>
          let e := fresh "e" in
          let m := fresh "m" in
          let ms := fresh "ms" in
          destruct (P log req) as [e|[[|m ms]|]]; simpl
      end
  end.

(** The nested retries of the code are the fixed list of attempts of the
    specification, tried in order up to the first non-empty answer. *)
Lemma cascade_spec (P : provider) (title_cn title_en : string)
    (year : option Z) (log : list request) :
  cascade P title_cn title_en year log
  = spec_cascade P (spec_attempts title_cn title_en year) log.
Proof.
  unfold cascade, spec_attempts, search, bind, ret.
  destruct (truthy_int year) eqn:Hy;
    destruct (truthy_str title_en) eqn:Hen;
    destruct (truthy_str (clean_title_en title_en)) eqn:Hclean;
    simpl; rewrite ?Hen, ?Hclean; simpl;
    repeat (split_answer; rewrite ?Hen, ?Hclean; simpl; try reflexivity).
Qed.

(** What a run of the attempts issues: the attempts up to some request
    [req], each of those before [req] answered with no candidate; the
    outcome is the answer to [req], and attempts are left over only if
    that answer holds candidates or is an exception. *)
Lemma spec_cascade_issued (P : provider) (attempts : list request) :
  attempts <> [] ->
  forall log : list request,
  exists (pre : list request) (req : request) (skipped : list request),
    attempts = (pre ++ req :: skipped)%list
    /\ spec_cascade P attempts log
       = (answer (P (log ++ pre)%list req), (log ++ pre ++ [req])%list)
    /\ reached P log pre
    /\ (answer (P (log ++ pre)%list req) = Ok [] -> skipped = []).
Proof.
  unfold reached.
  induction attempts as [|a rest IH]; [congruence|].
  intros _ log. simpl.
  destruct (answer (P log a)) as [[|m ms]|e] eqn:Ha.
  - assert (Hrest : rest = [] \/ rest <> [])
      by (destruct rest; [left; reflexivity|right; discriminate]).
    destruct Hrest as [->|Hne].
    + exists [], a, []. rewrite app_nil_r, Ha. simpl.
      repeat split; try reflexivity.
      intros p r q Hp. destruct p; discriminate.
    + destruct (IH Hne (log ++ [a])%list)
        as (pre & req & skipped & Heq & Hrun & Hpre & Hlast).
      exists (a :: pre), req, skipped.
      rewrite <- !app_assoc in Hrun, Hlast. simpl in Hrun, Hlast.
      split; [simpl; congruence|].
      split; [rewrite Hrun, <- app_assoc; reflexivity|].
      split; [|exact Hlast].
      intros p r q Hp. destruct p as [|a' p].
      * simpl in Hp. injection Hp as <- _. rewrite app_nil_r. exact Ha.
      * simpl in Hp. injection Hp as <- Hp.
        specialize (Hpre p r q Hp).
        rewrite <- app_assoc in Hpre. exact Hpre.
  - exists [], a, rest. rewrite app_nil_r, Ha. simpl.
    repeat split; try reflexivity; try discriminate.
    intros p r q Hp. destruct p; discriminate.
  - exists [], a, rest. rewrite app_nil_r, Ha. simpl.
    repeat split; try reflexivity; try discriminate.
    intros p r q Hp. destruct p; discriminate.
Qed.

Lemma spec_attempts_not_nil (title_cn title_en : string) (year : option Z) :
  spec_attempts title_cn title_en year <> [].
Proof. unfold spec_attempts. simpl. discriminate. Qed.

(** The matching part of [tmdb_search] issues no request. *)
Lemma tmdb_search_cascade (P : provider) (title_cn title_en : string)
    (year : option Z) (log : list request) :
  tmdb_search P title_cn title_en year log
  = (rbind (fst (cascade P title_cn title_en year log))
       (pick_match title_cn title_en year),
     snd (cascade P title_cn title_en year log)).
Proof.
  unfold tmdb_search, bind, lift.
  destruct (cascade P title_cn title_en year log) as [[results|e] log'];
    reflexivity.
Qed.

(** C2: the requests [tmdb_search] issues are the attempts of the query in
    their fixed order (native title and cleaned foreign title under the
    year constraint, then both without it), up to some attempt [req]: every
    attempt before [req] was answered with no candidate, the candidates
    matched are the answer to [req] and to no other request, and attempts
    are left out only when that answer is not empty. In particular, when
    the first attempt is answered with candidates, it is the only request
    issued. *)
Theorem cascade_stops_at_first_result (P : provider)
    (title_cn title_en : string) (year : option Z) (log : list request) :
  exists (pre : list request) (req : request) (skipped : list request),
    spec_attempts title_cn title_en year = (pre ++ req :: skipped)%list
    /\ tmdb_search P title_cn title_en year log
       = (rbind (answer (P (log ++ pre)%list req))
            (pick_match title_cn title_en year),
          (log ++ pre ++ [req])%list)
    /\ reached P log pre
    /\ (answer (P (log ++ pre)%list req) = Ok [] -> skipped = [])
    /\ (forall first rest,
        answer (P log (Request title_cn
                         (if truthy_int year then year else None)))
        = Ok (first :: rest) ->
        pre = []
        /\ req = Request title_cn (if truthy_int year then year else None)).
Proof.
  destruct (spec_cascade_issued P _
              (spec_attempts_not_nil title_cn title_en year) log)
    as (pre & req & skipped & Heq & Hrun & Hpre & Hlast).
  exists pre, req, skipped.
  rewrite tmdb_search_cascade, cascade_spec, Hrun. simpl.
  repeat split; try assumption.
  - destruct pre as [|r q]; [reflexivity|].
    specialize (Hpre [] r q eq_refl). rewrite app_nil_r in Hpre.
    unfold spec_attempts in Heq. simpl in Heq. injection Heq as <- _.
    congruence.
  - destruct pre as [|r q].
    + unfold spec_attempts in Heq. simpl in Heq. injection Heq as <- _.
      reflexivity.
    + specialize (Hpre [] r q eq_refl). rewrite app_nil_r in Hpre.
      unfold spec_attempts in Heq. simpl in Heq. injection Heq as <- _.
      congruence.
Qed.

Lemma cascade_stops_at_first_result_witness :
  snd (tmdb_search
         (Samples.always [Samples.candidate 55 "A" "B" "1993-01-01" []])
         "X" "/ Y" (Some 2000) [])
  = [Request "X" (Some 2000)].
Proof.
  destruct (cascade_stops_at_first_result
              (Samples.always [Samples.candidate 55 "A" "B" "1993-01-01" []])
              "X" "/ Y" (Some 2000) [])
    as (pre & req & skipped & _ & Hrun & _ & _ & Hfirst).
  destruct (Hfirst _ _ eq_refl) as [-> ->].
  rewrite Hrun. reflexivity.
Defined.

(** ** Determinism *)

(** Two runs of the attempts, each with its provider and its history, have
    the same outcome and issue the same requests when every attempt the
    first run reaches gets the same answer in both. *)
Lemma spec_cascade_ext (P1 P2 : provider) (attempts : list request) :
  forall log1 log2 : list request,
  (forall pre req post, attempts = (pre ++ req :: post)%list ->
   reached P1 log1 pre ->
   P1 (log1 ++ pre)%list req = P2 (log2 ++ pre)%list req) ->
  exists (r : result (list movie)) (issued : list request),
    spec_cascade P1 attempts log1 = (r, (log1 ++ issued)%list)
    /\ spec_cascade P2 attempts log2 = (r, (log2 ++ issued)%list).
Proof.
  induction attempts as [|a rest IH]; intros log1 log2 Hsame.
  - exists (Ok []), []. rewrite !app_nil_r. split; reflexivity.
  - assert (Ha : P1 log1 a = P2 log2 a).
    { rewrite <- (app_nil_r log1), <- (app_nil_r log2).
      apply (Hsame [] a rest eq_refl).
      intros p r q Hp. destruct p; discriminate Hp. }
    simpl. rewrite <- Ha.
    destruct (answer (P1 log1 a)) as [[|m ms]|e] eqn:Hans.
    + destruct (IH (log1 ++ [a])%list (log2 ++ [a])%list)
        as (r & issued & H1 & H2).
      { intros pre req post -> Hpre. rewrite <- !app_assoc.
        apply (Hsame (a :: pre) req post eq_refl).
        intros p r q Hp. destruct p as [|a' p].
        - simpl in Hp. injection Hp as <- _. rewrite app_nil_r. exact Hans.
        - simpl in Hp. injection Hp as <- Hp.
          specialize (Hpre p r q Hp).
          rewrite <- app_assoc in Hpre. exact Hpre. }
      exists r, (a :: issued).
      rewrite H1, H2, <- !app_assoc. split; reflexivity.
    + exists (Ok (m :: ms)), [a]. split; reflexivity.
    + exists (Err e), [a]. split; reflexivity.
Qed.

(** C9: two invocations of [tmdb_search] on the same query, each with its
    own provider and its own history of earlier requests, return the same
    result and issue the same requests as soon as every search call of
    the first gets the same answer in the second. *)
Theorem tmdb_search_deterministic (P1 P2 : provider)
    (title_cn title_en : string) (year : option Z)
    (log1 log2 : list request) :
  (forall pre req post,
   spec_attempts title_cn title_en year = (pre ++ req :: post)%list ->
   reached P1 log1 pre ->
   P1 (log1 ++ pre)%list req = P2 (log2 ++ pre)%list req) ->
  exists (r : result (option Z)) (issued : list request),
    tmdb_search P1 title_cn title_en year log1 = (r, (log1 ++ issued)%list)
    /\ tmdb_search P2 title_cn title_en year log2
       = (r, (log2 ++ issued)%list).
Proof.
  intros Hsame.
  destruct (spec_cascade_ext P1 P2 _ log1 log2 Hsame)
    as (r & issued & H1 & H2).
  exists (rbind r (pick_match title_cn title_en year)), issued.
  rewrite !tmdb_search_cascade, !cascade_spec, H1, H2.
  split; reflexivity.
Qed.

(** The splits of a concrete list of attempts, one at a time. *)
Ltac each_attempt H :=
  match type of H with
  | ?l = ?r => let l' := eval vm_compute in l in change (l' = r) in H
  end;
  repeat match type of H with
    | _ = (?pre ++ _ :: _)%list =>
        destruct pre;
        [injection H as <- <-; try reflexivity
        |simpl in H; injection H as <- H]
    | [] = (?pre ++ _ :: _)%list => destruct pre; discriminate H
    end.

Lemma tmdb_search_deterministic_witness :
  let film := Samples.candidate 55 "X" "Y" "1993-01-01" [] in
  exists (r : result (option Z)) (issued : list request),
    tmdb_search (Samples.by_request [film]) "X" "Y" (Some 2000) []
    = (r, issued)
    /\ tmdb_search (Samples.by_history 3 [film]) "X" "Y" (Some 2000)
         [Request "W" None]
       = (r, (Request "W" None :: issued)%list).
Proof.
  intros film.
  apply (tmdb_search_deterministic
           (Samples.by_request [film]) (Samples.by_history 3 [film])
           "X" "Y" (Some 2000) [] [Request "W" None]).
  intros pre req post H _. each_attempt H.
Defined.

(** ** Well-formed candidates *)

Lemma well_formed_reads (m : movie) :
  well_formed m = true ->
  strip_lower (get (m_title m) "") = Ok (lower (strip (text (m_title m))))
  /\ strip_lower (get (m_original_title m) "")
     = Ok (lower (strip (text (m_original_title m))))
  /\ slice4 (get (m_release_date m) "")
     = Ok (slice_to 4 (text (m_release_date m)))
  /\ excluded_genre (get (m_genre_ids m) [])
     = Ok (carries_excluded_genre m)
  /\ exists i, m_id m = Some i.
Proof.
  unfold well_formed, carries_excluded_genre.
  destruct m as [[i|] [| |t] [| |o] [| |d] [| |g]]; simpl;
    try discriminate; intros _; repeat split; eauto.
Qed.

Lemma well_formed_movie_id (m : movie) :
  well_formed m = true -> exists i, movie_id m = Ok (Some i).
Proof.
  intros H. destruct (well_formed_reads m H) as (_ & _ & _ & _ & i & Hi).
  exists i. unfold movie_id. rewrite Hi. reflexivity.
Qed.

(** On well-formed candidates each loop returns the id of the first
    candidate that passes its test. *)
Lemma tier1_first_match (title_cn title_en : string) (year : option Z)
    (ms : list movie) :
  forallb well_formed ms = true ->
  tier1 title_cn title_en year ms
  = first_match (title_year_matches title_cn title_en year) ms.
Proof.
  unfold first_match.
  induction ms as [|m ms IH]; [reflexivity|].
  simpl. intros [Hm Hms]%andb_prop.
  destruct (well_formed_reads m Hm) as (-> & -> & -> & _ & _). simpl.
  unfold title_year_matches, year_matches, title_matches.
  destruct (_ && _); [reflexivity|exact (IH Hms)].
Qed.

Lemma tier2_first_match (year : option Z) (ms : list movie) :
  forallb well_formed ms = true ->
  tier2 year ms = first_match (year_matches year) ms.
Proof.
  unfold first_match.
  induction ms as [|m ms IH]; [reflexivity|].
  simpl. intros [Hm Hms]%andb_prop.
  destruct (well_formed_reads m Hm) as (_ & _ & -> & _ & _). simpl.
  unfold year_matches.
  destruct (String.eqb _ _); [reflexivity|exact (IH Hms)].
Qed.

Lemma tier3_first_match (title_cn title_en : string) (ms : list movie) :
  forallb well_formed ms = true ->
  tier3 title_cn title_en ms
  = first_match (title_matches title_cn title_en) ms.
Proof.
  unfold first_match.
  induction ms as [|m ms IH]; [reflexivity|].
  simpl. intros [Hm Hms]%andb_prop.
  destruct (well_formed_reads m Hm) as (-> & -> & _ & _ & _). simpl.
  unfold title_matches.
  destruct (title_eq _ _ _ _); [reflexivity|exact (IH Hms)].
Qed.

Lemma tier4_first_match (title_cn title_en : string) (ms : list movie) :
  forallb well_formed ms = true ->
  tier4 title_cn title_en ms
  = first_match (title_contains title_cn title_en) ms.
Proof.
  unfold first_match.
  induction ms as [|m ms IH]; [reflexivity|].
  simpl. intros [Hm Hms]%andb_prop.
  destruct (well_formed_reads m Hm) as (-> & -> & _ & _ & _). simpl.
  unfold title_contains.
  destruct (title_in _ _ _ _); [reflexivity|exact (IH Hms)].
Qed.

(** The first match is a candidate of the sequence, so it has an id. *)
Lemma first_match_cases (test : movie -> bool) (ms : list movie) :
  forallb well_formed ms = true ->
  first_match test ms = Ok None
  \/ exists m i, In m ms /\ test m = true /\ m_id m = Some i
               /\ first_match test ms = Ok (Some i).
Proof.
  intros Hms. unfold first_match.
  destruct (List.find test ms) as [m|] eqn:Hfind; [right|left; reflexivity].
  apply find_some in Hfind as [Hin Htest].
  rewrite forallb_forall in Hms.
  destruct (well_formed_reads m (Hms m Hin)) as (_ & _ & _ & _ & i & Hi).
  exists m, i. unfold movie_id. rewrite Hi. auto.
Qed.

(** ** The genre filter on well-formed candidates *)

Lemma filter_movies_well_formed (results : list movie) :
  forallb well_formed results = true ->
  filter_movies results
  = Ok (List.filter (fun m => negb (carries_excluded_genre m)) results).
Proof.
  induction results as [|m ms IH]; [reflexivity|].
  simpl. intros [Hm Hms]%andb_prop.
  destruct (well_formed_reads m Hm) as (_ & _ & _ & -> & _).
  rewrite (IH Hms). simpl.
  destruct (carries_excluded_genre m); reflexivity.
Qed.

Lemma movie_results_of_well_formed (results : list movie) :
  forallb well_formed results = true ->
  movie_results_of results = Ok (kept_movies results).
Proof.
  intros H. unfold movie_results_of, kept_movies.
  rewrite (filter_movies_well_formed results H). simpl.
  destruct (List.filter _ results); reflexivity.
Qed.

Lemma kept_movies_incl (results : list movie) (m : movie) :
  In m (kept_movies results) -> In m results.
Proof.
  unfold kept_movies.
  destruct (List.filter _ results) as [|k kept] eqn:Hk; [trivial|].
  rewrite <- Hk. intros H. apply filter_In in H. tauto.
Qed.

Lemma kept_movies_not_nil (results : list movie) :
  results <> [] -> kept_movies results <> [].
Proof.
  unfold kept_movies. intros H.
  destruct (List.filter _ results); [exact H|discriminate].
Qed.

Lemma kept_movies_well_formed (results : list movie) :
  forallb well_formed results = true ->
  forallb well_formed (kept_movies results) = true.
Proof.
  rewrite !forallb_forall. intros H m Hm.
  apply H, kept_movies_incl, Hm.
Qed.

(** The sequence is kept whole when every candidate carries an excluded
    genre. *)
Lemma kept_movies_all_excluded (results : list movie) :
  forallb carries_excluded_genre results = true ->
  kept_movies results = results.
Proof.
  intros H. unfold kept_movies.
  replace (List.filter _ results) with (@nil movie); [reflexivity|].
  induction results as [|m ms IH]; [reflexivity|].
  simpl in *. apply andb_prop in H as [-> Hms]. simpl. exact (IH Hms).
Qed.

(** ** Totality *)

(** On a non-empty sequence of well-formed candidates the tiers return
    the id of one of them. *)
Lemma match_tiers_well_formed (title_cn title_en : string)
    (year : option Z) (ms : list movie) :
  forallb well_formed ms = true -> ms <> [] ->
  exists m i, In m ms /\ m_id m = Some i
              /\ match_tiers title_cn title_en year ms = Ok (Some i).
Proof.
  intros Hwf Hne. unfold match_tiers.
  rewrite tier1_first_match, tier2_first_match, tier3_first_match,
    tier4_first_match by exact Hwf.
  assert (H12 :
    (if truthy_int year
     then or_else (first_match (title_year_matches title_cn title_en year) ms)
            (first_match (year_matches year) ms)
     else Ok None) = Ok None
    \/ exists m i, In m ms /\ m_id m = Some i
                   /\ (if truthy_int year
                       then or_else
                              (first_match
                                 (title_year_matches title_cn title_en year)
                                 ms)
                              (first_match (year_matches year) ms)
                       else Ok None) = Ok (Some i)).
  { destruct (truthy_int year); [|left; reflexivity].
    destruct (first_match_cases
                (title_year_matches title_cn title_en year) ms Hwf)
      as [->|(m & i & Hin & _ & Hi & ->)]; simpl; [|right; eauto].
    destruct (first_match_cases (year_matches year) ms Hwf)
      as [->|(m & i & Hin & _ & Hi & ->)]; [left; reflexivity|right; eauto]. }
  destruct H12 as [->|(m & i & Hin & Hi & ->)]; simpl; [|eauto].
  destruct (first_match_cases (title_matches title_cn title_en) ms Hwf)
    as [->|(m & i & Hin & _ & Hi & ->)]; simpl; [|eauto].
  destruct (first_match_cases (title_contains title_cn title_en) ms Hwf)
    as [->|(m & i & Hin & _ & Hi & ->)]; simpl; [|eauto].
  destruct ms as [|m ms]; [congruence|].
  simpl in Hwf. apply andb_prop in Hwf as [Hm _].
  destruct (well_formed_reads m Hm) as (_ & _ & _ & _ & i & Hi).
  exists m, i. unfold tier5, movie_id. rewrite Hi. simpl. auto.
Qed.

(** On well-formed candidates the matching part raises nothing: no
    candidates give [None], some candidates give the id of one of them. *)
Lemma pick_match_well_formed (title_cn title_en : string)
    (year : option Z) (results : list movie) :
  forallb well_formed results = true ->
  (results = [] /\ pick_match title_cn title_en year results = Ok None)
  \/ exists m i, In m results /\ m_id m = Some i
                 /\ pick_match title_cn title_en year results = Ok (Some i).
Proof.
  intros Hwf. unfold pick_match.
  destruct results as [|r rs] eqn:Hr; [left; split; reflexivity|right].
  rewrite <- Hr in *. simpl.
  assert (Hne : results <> []) by (rewrite Hr; discriminate).
  replace (negb (truthy_list results)) with false
    by (rewrite Hr; reflexivity).
  rewrite (movie_results_of_well_formed results Hwf). simpl.
  destruct (match_tiers_well_formed title_cn title_en year
              (kept_movies results) (kept_movies_well_formed _ Hwf)
              (kept_movies_not_nil _ Hne))
    as (m & i & Hin & Hi & Hm).
  exists m, i. split; [exact (kept_movies_incl _ _ Hin)|]. split; assumption.
Qed.

Lemma well_behaved_answer (P : provider) :
  well_behaved P ->
  forall log req, exists results,
    answer (P log req) = Ok results
    /\ forallb well_formed results = true.
Proof.
  intros HP log req. specialize (HP log req).
  destruct (P log req) as [e|[results|]]; simpl;
    [contradiction|eauto|eauto].
Qed.

Lemma spec_cascade_all_empty (P : provider) (attempts : list request) :
  forall log : list request,
  (forall pre req post, attempts = (pre ++ req :: post)%list ->
   answer (P (log ++ pre)%list req) = Ok []) ->
  spec_cascade P attempts log = (Ok [], (log ++ attempts)%list).
Proof.
  induction attempts as [|a rest IH]; intros log Hempty.
  - rewrite app_nil_r. reflexivity.
  - pose proof (Hempty [] a rest eq_refl) as Ha.
    rewrite app_nil_r in Ha. simpl. rewrite Ha.
    rewrite (IH (log ++ [a])%list), <- app_assoc; [reflexivity|].
    intros pre req post ->. rewrite <- app_assoc.
    apply (Hempty (a :: pre) req post). reflexivity.
Qed.

(** C4, as the code has it: [tmdb_search] is a total function, and with a
    provider that does not raise and sends well-formed candidates (each
    with an id and no [null] field) it returns a value, an id or [None],
    for every query and every history. When every attempt of the cascade
    is answered with no candidate, it returns [None] after the last
    attempt, whatever the provider is otherwise. *)
Theorem tmdb_search_total (P : provider) (title_cn title_en : string)
    (year : option Z) (log : list request) :
  (well_behaved P ->
   exists (r : option Z) (log' : list request),
     tmdb_search P title_cn title_en year log = (Ok r, log'))
  /\ ((forall pre req post,
       spec_attempts title_cn title_en year = (pre ++ req :: post)%list ->
       answer (P (log ++ pre)%list req) = Ok []) ->
      tmdb_search P title_cn title_en year log
      = (Ok None, (log ++ spec_attempts title_cn title_en year)%list)).
Proof.
  split.
  - intros HP.
    destruct (spec_cascade_issued P _
                (spec_attempts_not_nil title_cn title_en year) log)
      as (pre & req & skipped & _ & Hrun & _ & _).
    destruct (well_behaved_answer P HP (log ++ pre)%list req)
      as (results & Hans & Hwf).
    rewrite tmdb_search_cascade, cascade_spec, Hrun, Hans. simpl.
    destruct (pick_match_well_formed title_cn title_en year results Hwf)
      as [[_ ->]|(m & i & _ & _ & ->)]; eauto.
  - intros Hempty.
    rewrite tmdb_search_cascade, cascade_spec.
    rewrite (spec_cascade_all_empty P _ log Hempty). reflexivity.
Qed.

Lemma tmdb_search_total_witness :
  (exists (r : option Z) (log' : list request),
     tmdb_search
       (Samples.always [Samples.candidate 55 "A" "B" "1993-01-01" []])
       "X" "" (Some 1993) [] = (Ok r, log'))
  /\ tmdb_search (Samples.always []) "X" "/ Y" (Some 2000) []
     = (Ok None,
        [Request "X" (Some 2000); Request "Y" (Some 2000);
         Request "X" None; Request "Y" None]).
Proof.
  split.
  - apply (proj1 (tmdb_search_total
                    (Samples.always
                       [Samples.candidate 55 "A" "B" "1993-01-01" []])
                    "X" "" (Some 1993) [])).
    intros log req. reflexivity.
  - apply (proj2 (tmdb_search_total (Samples.always [])
                    "X" "/ Y" (Some 2000) [])).
    intros pre req post _. reflexivity.
Defined.

(** C4, as it is stated, fails: not every answer of the provider gives a
    value. A candidate without the key ["id"] is read with a subscript and
    raises [KeyError] when the fallback returns it, and a request that
    raises is not caught. *)
Lemma tmdb_search_raises_on_response :
  tmdb_search
    (Samples.always [Movie None (Val "Y") (Val "Z") (Val "1990-01-01")
                       (Val [])])
    "X" "W" (Some 2000) []
  = (Err KeyError, [Request "X" (Some 2000)])
  /\ tmdb_search Samples.down "X" "W" (Some 2000) []
     = (Err RequestError, [Request "X" (Some 2000)]).
Proof. split; reflexivity. Qed.

(** ** The genre filter and its fallback *)

(** What [tmdb_search] returns once the cascade has given candidates. *)
Lemma tmdb_search_results (P : provider) (title_cn title_en : string)
    (year : option Z) (log log' : list request) (results : list movie) :
  cascade P title_cn title_en year log = (Ok results, log') ->
  tmdb_search P title_cn title_en year log
  = (pick_match title_cn title_en year results, log').
Proof. intros H. rewrite tmdb_search_cascade, H. reflexivity. Qed.

Lemma pick_match_kept (title_cn title_en : string) (year : option Z)
    (results : list movie) :
  results <> [] -> forallb well_formed results = true ->
  pick_match title_cn title_en year results
  = match_tiers title_cn title_en year (kept_movies results).
Proof.
  intros Hne Hwf. unfold pick_match.
  destruct results as [|r rs]; [congruence|].
  simpl negb. cbv iota.
  rewrite (movie_results_of_well_formed _ Hwf). reflexivity.
Qed.

(** C3, as the code has it: the candidates with an excluded genre are
    removed before the tiers, unless that leaves none, in which case the
    tiers run on the whole sequence. So a sequence whose candidates all
    carry an excluded genre still gives an id, that of the candidate the
    tiers choose in the whole sequence; it is the first candidate when
    tiers 1 to 4 find nothing. *)
Theorem filter_skipped_when_empty (P : provider)
    (title_cn title_en : string) (year : option Z)
    (log log' : list request) (results : list movie) :
  cascade P title_cn title_en year log = (Ok results, log') ->
  results <> [] ->
  forallb well_formed results = true ->
  movie_results_of results = Ok (kept_movies results)
  /\ tmdb_search P title_cn title_en year log
     = (match_tiers title_cn title_en year (kept_movies results), log')
  /\ (forallb carries_excluded_genre results = true ->
      kept_movies results = results
      /\ (exists m i,
           In m results /\ m_id m = Some i
           /\ tmdb_search P title_cn title_en year log = (Ok (Some i), log'))
      /\ ((if truthy_int year
           then or_else (tier1 title_cn title_en year results)
                  (tier2 year results)
           else Ok None) = Ok None ->
          tier3 title_cn title_en results = Ok None ->
          tier4 title_cn title_en results = Ok None ->
          tmdb_search P title_cn title_en year log
          = (tier5 results, log'))).
Proof.
  intros Hrun Hne Hwf.
  assert (Hsearch :
    tmdb_search P title_cn title_en year log
    = (match_tiers title_cn title_en year (kept_movies results), log')).
  { rewrite (tmdb_search_results _ _ _ _ _ _ _ Hrun).
    rewrite (pick_match_kept _ _ _ _ Hne Hwf). reflexivity. }
  split; [exact (movie_results_of_well_formed _ Hwf)|].
  split; [exact Hsearch|].
  intros Hall. rewrite Hsearch, (kept_movies_all_excluded _ Hall).
  split; [reflexivity|]. split.
  - destruct (match_tiers_well_formed title_cn title_en year results Hwf Hne)
      as (m & i & Hin & Hi & ->).
    eauto.
  - intros H12 H3 H4. unfold match_tiers. rewrite H12, H3, H4. reflexivity.
Qed.

Lemma filter_skipped_when_empty_witness :
  let results := [Samples.candidate 1 "Y" "Z" "1990-01-01" [99];
                  Samples.candidate 2 "Y" "Z" "2000-01-01" [18; 10770]] in
  kept_movies results = results
  /\ tmdb_search (Samples.always results) "X" "W" (Some 1995) []
     = (Ok (Some 1), [Request "X" (Some 1995)]).
Proof.
  intros results.
  destruct (filter_skipped_when_empty (Samples.always results)
              "X" "W" (Some 1995) [] [Request "X" (Some 1995)] results)
    as (_ & _ & Hall); [reflexivity|discriminate|reflexivity|].
  destruct (Hall eq_refl) as (Hkept & _ & Hfirst).
  split; [exact Hkept|].
  exact (Hfirst eq_refl eq_refl eq_refl).
Defined.

(** C3, as it is stated, fails: with every candidate carrying an excluded
    genre the tiers still choose; here the year tier returns the second
    candidate, not the provider's first. *)
Lemma filter_fallback_not_top_ranked :
  let results := [Samples.candidate 1 "Y" "Z" "1990-01-01" [99];
                  Samples.candidate 2 "Y" "Z" "2000-01-01" [99]] in
  forallb carries_excluded_genre results = true
  /\ tmdb_search (Samples.always results) "X" "" (Some 2000) []
     = (Ok (Some 2), [Request "X" (Some 2000)])
  /\ m_id <$> head results = Some (Some 1).
Proof. repeat split. Qed.

(** ** Tier precedence *)

Lemma find_first (test : movie -> bool) (pre post : list movie) (c : movie) :
  forallb (fun m => negb (test m)) pre = true ->
  test c = true ->
  List.find test (pre ++ c :: post)%list = Some c.
Proof.
  intros Hpre Hc. induction pre as [|m pre IH]; simpl.
  - rewrite Hc. reflexivity.
  - simpl in Hpre. apply andb_prop in Hpre as [Hm Hpre].
    apply negb_true_iff in Hm. rewrite Hm. exact (IH Hpre).
Qed.

(** C1, as the code has it: under a year constraint, when the candidates
    left by the genre filter hold one that matches title and year, tier 1
    returns the id of the first such candidate in provider order, and so
    does [tmdb_search]. The candidates before it are any that do not match
    both, those of the same year included. *)
Theorem tier1_takes_precedence (P : provider) (title_cn title_en : string)
    (year : option Z) (log log' : list request) (results : list movie)
    (pre post : list movie) (c : movie) (i : Z) :
  truthy_int year = true ->
  cascade P title_cn title_en year log = (Ok results, log') ->
  forallb well_formed results = true ->
  kept_movies results = (pre ++ c :: post)%list ->
  forallb (fun m => negb (title_year_matches title_cn title_en year m)) pre
  = true ->
  title_year_matches title_cn title_en year c = true ->
  m_id c = Some i ->
  tier1 title_cn title_en year (kept_movies results) = Ok (Some i)
  /\ tmdb_search P title_cn title_en year log = (Ok (Some i), log').
Proof.
  intros Hy Hrun Hwf Hkept Hpre Hc Hi.
  assert (Hne : results <> []).
  { intros ->. destruct pre; discriminate Hkept. }
  assert (H1 : tier1 title_cn title_en year (kept_movies results)
               = Ok (Some i)).
  { rewrite tier1_first_match by exact (kept_movies_well_formed _ Hwf).
    unfold first_match. rewrite Hkept, (find_first _ _ _ _ Hpre Hc).
    unfold movie_id. rewrite Hi. reflexivity. }
  split; [exact H1|].
  rewrite (tmdb_search_results _ _ _ _ _ _ _ Hrun).
  rewrite (pick_match_kept _ _ _ _ Hne Hwf).
  unfold match_tiers. rewrite Hy, H1. reflexivity.
Qed.

Lemma tier1_takes_precedence_witness :
  let results := [Samples.candidate 3 "Other" "Autre" "1993-02-02" [];
                  Samples.candidate 55 " The Film " "Le Film" "1993-01-01" []]
  in
  tier1 "the film" "" (Some 1993) (kept_movies results) = Ok (Some 55)
  /\ tmdb_search (Samples.always results) "the film" "" (Some 1993) []
     = (Ok (Some 55), [Request "the film" (Some 1993)]).
Proof.
  intros results.
  apply (tier1_takes_precedence (Samples.always results)
           "the film" "" (Some 1993) [] [Request "the film" (Some 1993)]
           results
           [Samples.candidate 3 "Other" "Autre" "1993-02-02" []] []
           (Samples.candidate 55 " The Film " "Le Film" "1993-01-01" []) 55);
    reflexivity.
Defined.

(** C1, as it is stated, fails in two ways. When two candidates match
    title and year, the first is returned, so the claim fails for the
    second. And a matching candidate that carries an excluded genre is
    removed before the tiers when another candidate passes the filter:
    the same-year candidate before it is returned by tier 2. *)
Lemma tier1_not_that_candidate :
  (let c := Samples.candidate 2 "X" "O2" "1999-05-05" [] in
   let results := [Samples.candidate 1 "X" "O1" "1999-01-01" []; c] in
   In c results
   /\ title_year_matches "X" "E" (Some 1999) c = true
   /\ m_id c = Some 2
   /\ tmdb_search (Samples.always results) "X" "E" (Some 1999) []
      = (Ok (Some 1), [Request "X" (Some 1999)]))
  /\ (let c := Samples.candidate 4 "X" "E" "2009-07-31" [99] in
      let results := [Samples.candidate 3 "Other" "O" "2009-01-01" []; c] in
      In c results
      /\ title_year_matches "X" "E" (Some 2009) c = true
      /\ m_id c = Some 4
      /\ tmdb_search (Samples.always results) "X" "E" (Some 2009) []
         = (Ok (Some 3), [Request "X" (Some 2009)])).
Proof.
  split; cbv zeta; (split; [simpl; tauto|repeat split]).
Qed.

(** ** Candidates with missing fields *)

Lemma get_with_default {A} (f : field A) (default : A) :
  get (with_default f default) default = get f default.
Proof. destruct f; reflexivity. Qed.

Section FillDefaults.
Variables (title_cn title_en : string) (year : option Z).

Lemma movie_id_fill (m : movie) : movie_id (fill_defaults m) = movie_id m.
Proof. reflexivity. Qed.

Lemma tier1_fill (ms : list movie) :
  tier1 title_cn title_en year (map fill_defaults ms)
  = tier1 title_cn title_en year ms.
Proof.
  induction ms as [|m ms IH]; [reflexivity|].
  simpl. rewrite !get_with_default, IH. reflexivity.
Qed.

Lemma tier2_fill (ms : list movie) :
  tier2 year (map fill_defaults ms) = tier2 year ms.
Proof.
  induction ms as [|m ms IH]; [reflexivity|].
  simpl. rewrite !get_with_default, IH. reflexivity.
Qed.

Lemma tier3_fill (ms : list movie) :
  tier3 title_cn title_en (map fill_defaults ms)
  = tier3 title_cn title_en ms.
Proof.
  induction ms as [|m ms IH]; [reflexivity|].
  simpl. rewrite !get_with_default, IH. reflexivity.
Qed.

Lemma tier4_fill (ms : list movie) :
  tier4 title_cn title_en (map fill_defaults ms)
  = tier4 title_cn title_en ms.
Proof.
  induction ms as [|m ms IH]; [reflexivity|].
  simpl. rewrite !get_with_default, IH. reflexivity.
Qed.

Lemma match_tiers_fill (ms : list movie) :
  match_tiers title_cn title_en year (map fill_defaults ms)
  = match_tiers title_cn title_en year ms.
Proof.
  unfold match_tiers.
  rewrite tier1_fill, tier2_fill, tier3_fill, tier4_fill.
  destruct ms; reflexivity.
Qed.

Lemma filter_movies_fill (results : list movie) :
  filter_movies (map fill_defaults results)
  = rbind (filter_movies results) (fun kept => Ok (map fill_defaults kept)).
Proof.
  induction results as [|m ms IH]; [reflexivity|].
  simpl. rewrite get_with_default, IH.
  destruct (excluded_genre (get (m_genre_ids m) [])) as [skip|e];
    [|reflexivity].
  simpl. destruct (filter_movies ms) as [kept|e]; [|reflexivity].
  simpl. destruct skip; reflexivity.
Qed.

Lemma pick_match_fill (results : list movie) :
  pick_match title_cn title_en year (map fill_defaults results)
  = pick_match title_cn title_en year results.
Proof.
  unfold pick_match, movie_results_of.
  destruct results as [|r rs]; [reflexivity|].
  rewrite filter_movies_fill.
  destruct (filter_movies (r :: rs)) as [kept|e]; [|reflexivity].
  simpl. destruct kept as [|k kept]; simpl.
  - rewrite <- (match_tiers_fill (r :: rs)). reflexivity.
  - rewrite <- (match_tiers_fill (k :: kept)). reflexivity.
Qed.

End FillDefaults.

Lemma spec_cascade_map_provider (f : movie -> movie) (P : provider)
    (attempts : list request) :
  forall log : list request,
  spec_cascade (map_provider f P) attempts log
  = (rbind (fst (spec_cascade P attempts log))
       (fun results => Ok (map f results)),
     snd (spec_cascade P attempts log)).
Proof.
  induction attempts as [|a rest IH]; intros log; [reflexivity|].
  simpl. unfold map_provider at 1.
  destruct (P log a) as [e|[[|m ms]|]]; simpl; try reflexivity; apply IH.
Qed.

(** C6, as the code has it: a candidate whose title, original title,
    release date or genre tags are missing is not skipped. Each missing
    key is read at its default (the empty text, the empty list of tags),
    so the resolution is the one of the same candidates with the defaults
    written out; and when the candidates have an id and no [null] field,
    the resolution returns a value. *)
Theorem absent_fields_read_as_defaults (P : provider)
    (title_cn title_en : string) (year : option Z) (log : list request) :
  tmdb_search (map_provider fill_defaults P) title_cn title_en year log
  = tmdb_search P title_cn title_en year log
  /\ (forall results log',
      cascade P title_cn title_en year log = (Ok results, log') ->
      forallb well_formed results = true ->
      exists r : option Z,
        tmdb_search P title_cn title_en year log = (Ok r, log')).
Proof.
  split.
  - rewrite !tmdb_search_cascade, !cascade_spec, spec_cascade_map_provider.
    destruct (spec_cascade P (spec_attempts title_cn title_en year) log)
      as [[results|e] log']; [|reflexivity].
    cbn [fst snd rbind]. rewrite pick_match_fill. reflexivity.
  - intros results log' Hrun Hwf.
    rewrite (tmdb_search_results _ _ _ _ _ _ _ Hrun).
    destruct (pick_match_well_formed title_cn title_en year results Hwf)
      as [[_ ->]|(m & i & _ & _ & ->)]; eauto.
Qed.

Lemma absent_fields_read_as_defaults_witness :
  let bare := Movie (Some 7) Absent Absent Absent Absent in
  let other := Samples.candidate 8 "Y" "Z" "1990-01-01" [] in
  tmdb_search (Samples.always [Samples.candidate 7 "" "" "" []; other])
    "X" "W" None []
  = tmdb_search (Samples.always [bare; other]) "X" "W" None []
  /\ exists r : option Z,
       tmdb_search (Samples.always [bare; other]) "X" "W" None []
       = (Ok r, [Request "X" None]).
Proof.
  intros bare other.
  destruct (absent_fields_read_as_defaults (Samples.always [bare; other])
              "X" "W" None []) as [Hfill Hok].
  split; [exact Hfill|].
  apply (Hok [bare; other]); reflexivity.
Defined.

(** C6, as it is stated, fails. A candidate with every field missing is
    not skipped: with an empty foreign title the substring tier chooses
    it, where the sequence without it gives the next candidate. And a
    candidate whose title is [null] stops the resolution with an
    exception, although a well-formed candidate follows it. *)
Lemma malformed_candidate_not_skipped :
  let bare := Movie (Some 7) Absent Absent Absent Absent in
  let null_title :=
    Movie (Some 7) Null (Val "Z") (Val "1990-01-01") (Val []) in
  let other := Samples.candidate 8 "Y" "Z" "1990-01-01" [] in
  tmdb_search (Samples.always [bare; other]) "X" "" None []
  = (Ok (Some 7), [Request "X" None])
  /\ tmdb_search (Samples.always [other]) "X" "" None []
     = (Ok (Some 8), [Request "X" None])
  /\ tmdb_search (Samples.always [null_title; other]) "X" "" None []
     = (Err AttributeError, [Request "X" None]).
Proof. repeat split. Qed.

(** ** The batch driver *)

(** The loop over a catalog in two parts: the second part starts from the
    accumulators and the log the first part ends with, if it ends. *)
Lemma main_loop_app (P : provider) (before after : list catalog_movie) :
  forall (matched_movies : list (catalog_movie * Z)) (misses : list string)
         (log : list request),
  main_loop P (before ++ after)%list matched_movies misses log
  = match main_loop P before matched_movies misses log with
    | (Ok (matched_movies', misses'), log') =>
        main_loop P after matched_movies' misses' log'
    | (Err e, log') => (Err e, log')
    end.
Proof.
  induction before as [|movie rest IH]; intros matched_movies misses log.
  - simpl. unfold ret. reflexivity.
  - simpl. unfold bind.
    destruct (tmdb_search P (title_cn movie) (title_en movie) (year movie)
                log) as [[[i|]|e] log1]; [| |reflexivity].
    + destruct (truthy_int (Some i)); apply IH.
    + apply IH.
Qed.

(** C5, as the code has it: nothing catches an exception of the provider.
    When a search raises for an entry of the catalog, the exception leaves
    [tmdb_search] and the loop: the run ends there, without the outcomes
    of the entries before and without a request for the entries after. An
    answer that is a JSON object without results (the body of an error
    status) reads as no candidate: if every attempt of an entry is so
    answered, the entry is recorded as a miss and the loop goes on. A
    catalog that could not be loaded ends the run before any request. *)
Theorem provider_failure_aborts_run (P : provider)
    (before rest : list catalog_movie) (movie : catalog_movie)
    (matched_movies : list (catalog_movie * Z)) (misses : list string)
    (log : list request) :
  (forall matched_movies' misses' log1 log2 e,
   main_loop P before matched_movies misses log
   = (Ok (matched_movies', misses'), log1) ->
   tmdb_search P (title_cn movie) (title_en movie) (year movie) log1
   = (Err e, log2) ->
   main_loop P (before ++ movie :: rest)%list matched_movies misses log
   = (Err e, log2))
  /\ ((forall pre req post,
       spec_attempts (title_cn movie) (title_en movie) (year movie)
       = (pre ++ req :: post)%list ->
       P (log ++ pre)%list req = Json None) ->
      main_loop P (movie :: rest) matched_movies misses log
      = main_loop P rest matched_movies (misses ++ [miss_text movie])%list
          (log ++ spec_attempts (title_cn movie) (title_en movie)
                    (year movie))%list)
  /\ main P None log = (Err (SystemExit 1), log).
Proof.
  split; [|split; [|reflexivity]].
  - intros matched_movies' misses' log1 log2 e Hbefore Hraise.
    rewrite main_loop_app, Hbefore. simpl. unfold bind.
    rewrite Hraise. reflexivity.
  - intros Hnone. simpl. unfold bind.
    rewrite tmdb_search_cascade, cascade_spec.
    rewrite (spec_cascade_all_empty P _ log).
    + reflexivity.
    + intros pre req post Heq. rewrite (Hnone pre req post Heq).
      reflexivity.
Qed.

Lemma provider_failure_aborts_run_witness :
  let first := CatalogMovie 1 "X" "" (Some 1994) in
  let second := CatalogMovie 2 "V" "" None in
  let third := CatalogMovie 3 "U" "" None in
  let P : provider :=
    fun log _ =>
      if bool_decide (length log = 2%nat) then Raises RequestError
      else Json None in
  main_loop P [first; second; third] [] [] []
  = (Err RequestError,
     [Request "X" (Some 1994); Request "X" None; Request "V" None])
  /\ main_loop (fun _ _ => Json None) [first; second] [] [] []
     = main_loop (fun _ _ => Json None) [second] []
         ["X /  (1994)"] [Request "X" (Some 1994); Request "X" None].
Proof.
  intros first second third P. split.
  - apply (proj1 (provider_failure_aborts_run P [first] [third] second
                    [] [] []) [] ["X /  (1994)"]
             [Request "X" (Some 1994); Request "X" None]);
      reflexivity.
  - apply (proj1 (proj2 (provider_failure_aborts_run (fun _ _ => Json None)
                           [] [second] first [] [] []))).
    intros pre req post _. reflexivity.
Defined.

(** C5, as it is stated, fails: with a provider that is down, the run
    over a catalog of two entries ends with the exception of the first
    request, and no request is made for the second entry. *)
Lemma provider_failure_not_caught :
  main Samples.down
    (Some [CatalogMovie 1 "X" "/ Y" (Some 1994);
           CatalogMovie 2 "V" "/ W" (Some 1995)]) []
  = (Err RequestError, [Request "X" (Some 1994)]).
Proof. reflexivity. Qed.

(** ** The merge *)

Section MergeFacts.
Context {float : Type}.
Import Merge.

Lemma find_app_last {A} (test : A -> bool) (l : list A) (a : A) :
  List.find test (l ++ [a])%list
  = match List.find test l with
    | Some x => Some x
    | None => if test a then Some a else None
    end.
Proof.
  induction l as [|x l IH]; simpl; [reflexivity|].
  destruct (test x); [reflexivity|exact IH].
Qed.

(** The mapping holds, under a title, the entry of that title that comes
    last in the collection. *)
Lemma build_mapping_lookup (tmdb_movie : list kometa_movie) (t : string) :
  forall tmdb_mapping : gmap string tmdb_info,
  fold_left
    (fun tmdb_mapping movie =>
       <[k_title movie := TmdbInfo (k_id movie) (k_index movie)]>
         tmdb_mapping)
    tmdb_movie tmdb_mapping !! t
  = match List.find (fun k => String.eqb (k_title k) t) (rev tmdb_movie) with
    | Some k => Some (TmdbInfo (k_id k) (k_index k))
    | None => tmdb_mapping !! t
    end.
Proof.
  induction tmdb_movie as [|a l IH]; intros tmdb_mapping; [reflexivity|].
  simpl. rewrite IH, find_app_last.
  destruct (List.find _ (rev l)); [reflexivity|].
  destruct (String.eqb_spec (k_title a) t) as [->|Hne].
  - apply lookup_insert_eq.
  - apply lookup_insert_ne. exact Hne.
Qed.

(** C7: the merge gives one record for each record of the catalog, in
    order and with the seven fields of the catalog copied; its [tmdb_id]
    is the id of an entry of the collection whose title is the very
    string [title_cn] when there is one, and [None] when no entry has
    that title. *)
Theorem merge_data_left_outer_join
    (douban_movies : list (douban_movie float))
    (tmdb_data : option (list kometa_movie)) :
  length (merge_data douban_movies tmdb_data) = length douban_movies
  /\ forall (n : nat) (movie : douban_movie float),
     douban_movies !! n = Some movie ->
     exists merged : merged_movie float,
       merge_data douban_movies tmdb_data !! n = Some merged
       /\ (merged_rank merged, merged_title_cn merged,
           merged_title_en merged, merged_year merged,
           merged_rating merged, merged_director merged,
           merged_actors merged)
          = (rank movie, title_cn movie, title_en movie, year movie,
             rating movie, director movie, actors movie)
       /\ ((exists k,
             In k (default [] tmdb_data) /\ k_title k = title_cn movie
             /\ merged_tmdb_id merged = Some (k_id k))
           \/ ((forall k, In k (default [] tmdb_data) ->
                k_title k <> title_cn movie)
               /\ merged_tmdb_id merged = None)).
Proof.
  unfold merge_data. split; [apply length_map|].
  intros n movie Hn. eexists. split.
  { rewrite list_lookup_fmap, Hn. reflexivity. }
  split; [reflexivity|]. simpl.
  destruct tmdb_data as [tmdb_movie|]; simpl.
  - rewrite build_mapping_lookup, lookup_empty.
    destruct (List.find _ (rev tmdb_movie)) as [k|] eqn:Hfind.
    + left. apply find_some in Hfind as [Hin Heq].
      exists k. rewrite <- in_rev in Hin.
      apply String.eqb_eq in Heq. auto.
    + right. split; [|reflexivity].
      intros k Hin Heq.
      rewrite in_rev in Hin.
      pose proof (find_none _ _ Hfind k Hin) as Hk. simpl in Hk.
      rewrite Heq, String.eqb_refl in Hk. discriminate Hk.
  - right. split; [|rewrite lookup_empty; reflexivity].
    intros k [].
Qed.

End MergeFacts.

Lemma merge_data_left_outer_join_witness :
  let hit := Merge.DoubanMovie 1 "A" "/ B" (Some 1994) (Some tt) "D" "E" in
  let miss := Merge.DoubanMovie 2 "a" "/ C" None None "F" "G" in
  Merge.merged_tmdb_id
  <$> Merge.merge_data [hit; miss] (Some [Merge.KometaMovie 278 "A" 1])
  = [Some 278; None].
Proof.
  intros hit miss.
  destruct (merge_data_left_outer_join [hit; miss]
              (Some [Merge.KometaMovie 278 "A" 1])) as [_ Hrec].
  destruct (Hrec 0%nat hit eq_refl) as (m0 & H0 & _ & _).
  destruct (Hrec 1%nat miss eq_refl) as (m1 & H1 & _ & _).
  vm_compute in H0, H1. injection H0 as <-. injection H1 as <-.
  reflexivity.
Defined.

(** ** Where a returned id comes from *)

Lemma movie_id_some (m : movie) (i : Z) :
  movie_id m = Ok (Some i) -> m_id m = Some i.
Proof. unfold movie_id. destruct (m_id m); congruence. Qed.

(** What the reads of a candidate give when they raise nothing. *)
Lemma strip_lower_ok (f : field string) (t : string) :
  strip_lower (get f "") = Ok t -> t = lower (strip (text f)).
Proof. destruct f; simpl; congruence. Qed.

Lemma slice4_ok (f : field string) (t : string) :
  slice4 (get f "") = Ok t -> t = slice_to 4 (text f).
Proof. destruct f; simpl; congruence. Qed.

(** A loop that returns an id returns the id of a candidate that passes
    its test. *)
Lemma tier1_some (title_cn title_en : string) (year : option Z)
    (ms : list movie) (i : Z) :
  tier1 title_cn title_en year ms = Ok (Some i) ->
  exists m, In m ms /\ m_id m = Some i
            /\ title_year_matches title_cn title_en year m = true.
Proof.
  induction ms as [|m ms IH]; simpl; [discriminate|].
  destruct (strip_lower (get (m_title m) "")) as [t|] eqn:Ht;
    [|discriminate].
  destruct (strip_lower (get (m_original_title m) "")) as [o|] eqn:Ho;
    [|discriminate].
  destruct (slice4 (get (m_release_date m) "")) as [d|] eqn:Hd;
    [|discriminate].
  simpl. apply strip_lower_ok in Ht, Ho. apply slice4_ok in Hd. subst.
  destruct (_ && _) eqn:Htest.
  - intros H%movie_id_some. exists m. auto.
  - intros H. destruct (IH H) as (m' & Hin & Hm'). exists m'. auto.
Qed.

Lemma tier2_some (year : option Z) (ms : list movie) (i : Z) :
  tier2 year ms = Ok (Some i) ->
  exists m, In m ms /\ m_id m = Some i /\ year_matches year m = true.
Proof.
  induction ms as [|m ms IH]; simpl; [discriminate|].
  destruct (slice4 (get (m_release_date m) "")) as [d|] eqn:Hd;
    [|discriminate].
  simpl. apply slice4_ok in Hd. subst.
  destruct (String.eqb _ _) eqn:Htest.
  - intros H%movie_id_some. exists m. auto.
  - intros H. destruct (IH H) as (m' & Hin & Hm'). exists m'. auto.
Qed.

Lemma tier3_some (title_cn title_en : string) (ms : list movie) (i : Z) :
  tier3 title_cn title_en ms = Ok (Some i) ->
  exists m, In m ms /\ m_id m = Some i
            /\ title_matches title_cn title_en m = true.
Proof.
  induction ms as [|m ms IH]; simpl; [discriminate|].
  destruct (strip_lower (get (m_title m) "")) as [t|] eqn:Ht;
    [|discriminate].
  destruct (strip_lower (get (m_original_title m) "")) as [o|] eqn:Ho;
    [|discriminate].
  simpl. apply strip_lower_ok in Ht, Ho. subst.
  destruct (title_eq _ _ _ _) eqn:Htest.
  - intros H%movie_id_some. exists m. auto.
  - intros H. destruct (IH H) as (m' & Hin & Hm'). exists m'. auto.
Qed.

Lemma tier4_some (title_cn title_en : string) (ms : list movie) (i : Z) :
  tier4 title_cn title_en ms = Ok (Some i) ->
  exists m, In m ms /\ m_id m = Some i
            /\ title_contains title_cn title_en m = true.
Proof.
  induction ms as [|m ms IH]; simpl; [discriminate|].
  destruct (strip_lower (get (m_title m) "")) as [t|] eqn:Ht;
    [|discriminate].
  destruct (strip_lower (get (m_original_title m) "")) as [o|] eqn:Ho;
    [|discriminate].
  simpl. apply strip_lower_ok in Ht, Ho. subst.
  destruct (title_in _ _ _ _) eqn:Htest.
  - intros H%movie_id_some. exists m. auto.
  - intros H. destruct (IH H) as (m' & Hin & Hm'). exists m'. auto.
Qed.

Lemma tier5_some (ms : list movie) (i : Z) :
  tier5 ms = Ok (Some i) -> exists m, In m ms /\ m_id m = Some i.
Proof.
  destruct ms as [|m ms]; simpl; [discriminate|].
  intros H%movie_id_some. exists m. auto.
Qed.

Lemma or_else_some (r next : result (option Z)) (i : Z) :
  or_else r next = Ok (Some i) ->
  r = Ok (Some i) \/ (r = Ok None /\ next = Ok (Some i)).
Proof. destruct r as [[j|]|e]; simpl; auto. Qed.

Lemma match_tiers_some (title_cn title_en : string) (year : option Z)
    (ms : list movie) (i : Z) :
  match_tiers title_cn title_en year ms = Ok (Some i) ->
  exists m, In m ms /\ m_id m = Some i.
Proof.
  unfold match_tiers. intros H.
  apply or_else_some in H as [H|[_ H]].
  - destruct (truthy_int year); [|discriminate].
    apply or_else_some in H as [H|[_ H]].
    + destruct (tier1_some _ _ _ _ _ H) as (m & ? & ? & _). eauto.
    + destruct (tier2_some _ _ _ H) as (m & ? & ? & _). eauto.
  - apply or_else_some in H as [H|[_ H]].
    + destruct (tier3_some _ _ _ _ H) as (m & ? & ? & _). eauto.
    + apply or_else_some in H as [H|[_ H]].
      * destruct (tier4_some _ _ _ _ H) as (m & ? & ? & _). eauto.
      * exact (tier5_some _ _ H).
Qed.

Lemma excluded_genre_ok (m : movie) (skip : bool) :
  excluded_genre (get (m_genre_ids m) []) = Ok skip ->
  skip = carries_excluded_genre m.
Proof.
  unfold carries_excluded_genre.
  destruct (m_genre_ids m) as [| |genres]; simpl;
    [|discriminate|congruence].
  intros [= <-]. reflexivity.
Qed.

(** A filter that raises nothing has read no [null] list of genres, and
    keeps the candidates without an excluded genre. *)
Lemma filter_movies_ok (results kept : list movie) :
  filter_movies results = Ok kept ->
  kept = List.filter (fun m => negb (carries_excluded_genre m)) results.
Proof.
  revert kept. induction results as [|m ms IH]; simpl; intros kept.
  - congruence.
  - destruct (excluded_genre (get (m_genre_ids m) [])) as [skip|] eqn:Hskip;
      [|discriminate].
    apply excluded_genre_ok in Hskip. subst skip.
    destruct (filter_movies ms) as [kept'|]; [|discriminate].
    simpl. rewrite (IH kept' eq_refl).
    destruct (carries_excluded_genre m); simpl; congruence.
Qed.

Lemma movie_results_of_ok (results movie_results : list movie) :
  movie_results_of results = Ok movie_results ->
  movie_results = kept_movies results.
Proof.
  unfold movie_results_of, kept_movies.
  destruct (filter_movies results) as [kept|] eqn:Hk; [|discriminate].
  apply filter_movies_ok in Hk. subst kept. simpl.
  destruct (List.filter _ results); simpl; congruence.
Qed.

(** The matching part, when it returns an id: the tiers ran on the kept
    candidates, which are not empty. *)
Lemma pick_match_some (title_cn title_en : string) (year : option Z)
    (results : list movie) (i : Z) :
  pick_match title_cn title_en year results = Ok (Some i) ->
  results <> []
  /\ match_tiers title_cn title_en year (kept_movies results) = Ok (Some i).
Proof.
  unfold pick_match. destruct results as [|r rs]; [discriminate|].
  simpl negb. cbv iota.
  destruct (movie_results_of (r :: rs)) as [ms|] eqn:Hms; [|discriminate].
  apply movie_results_of_ok in Hms. subst ms. simpl.
  intros H. split; [discriminate|exact H].
Qed.

(** [tmdb_search], when it returns an id: the request it stopped at was
    answered with candidates, and the tiers gave the id on those kept. *)
Lemma tmdb_search_some (P : provider) (title_cn title_en : string)
    (year : option Z) (log log' : list request) (i : Z) :
  tmdb_search P title_cn title_en year log = (Ok (Some i), log') ->
  exists pre req skipped results,
    spec_attempts title_cn title_en year = (pre ++ req :: skipped)%list
    /\ log' = (log ++ pre ++ [req])%list
    /\ reached P log pre
    /\ answer (P (log ++ pre)%list req) = Ok results
    /\ results <> []
    /\ match_tiers title_cn title_en year (kept_movies results)
       = Ok (Some i).
Proof.
  destruct (spec_cascade_issued P _
              (spec_attempts_not_nil title_cn title_en year) log)
    as (pre & req & skipped & Heq & Hrun & Hpre & _).
  rewrite tmdb_search_cascade, cascade_spec, Hrun. simpl.
  destruct (answer (P (log ++ pre)%list req)) as [results|e] eqn:Hans;
    simpl; [|discriminate].
  intros [= Hpick <-].
  apply pick_match_some in Hpick as [Hne Htiers].
  exists pre, req, skipped, results. auto 10.
Qed.

(** X1: an id returned by [tmdb_search] is the id of a candidate that the
    provider sent in its answer to the last request issued; no
    well-formedness of the candidates is needed for this. *)
Theorem tmdb_search_returns_candidate_id (P : provider)
    (title_cn title_en : string) (year : option Z)
    (log log' : list request) (i : Z) :
  tmdb_search P title_cn title_en year log = (Ok (Some i), log') ->
  exists history req results m,
    log' = (history ++ [req])%list
    /\ answer (P history req) = Ok results
    /\ In m results
    /\ m_id m = Some i.
Proof.
  intros H.
  destruct (tmdb_search_some _ _ _ _ _ _ _ H)
    as (pre & req & skipped & results & _ & -> & _ & Hans & _ & Htiers).
  destruct (match_tiers_some _ _ _ _ _ Htiers) as (m & Hin & Hi).
  exists (log ++ pre)%list, req, results, m.
  rewrite app_assoc. auto using kept_movies_incl.
Qed.

Lemma tmdb_search_returns_candidate_id_witness :
  exists history req results m,
    [Request "X" (Some 2000); Request "X" None] = (history ++ [req])%list
    /\ answer (Samples.by_request
                 [Samples.candidate 55 "A" "B" "1993-01-01" []] history req)
       = Ok results
    /\ In m results
    /\ m_id m = Some 55.
Proof.
  apply (tmdb_search_returns_candidate_id
           (Samples.by_request [Samples.candidate 55 "A" "B" "1993-01-01" []])
           "X" "" (Some 2000) []).
  reflexivity.
Defined.

(** ** What the filter and the order of the tiers guarantee *)

Lemma kept_movies_clean (results : list movie) (m0 : movie) :
  In m0 results -> carries_excluded_genre m0 = false ->
  forall m, In m (kept_movies results) ->
            In m results /\ carries_excluded_genre m = false.
Proof.
  intros Hin0 Hclean0 m. unfold kept_movies.
  destruct (List.filter _ results) as [|k kept] eqn:Hk.
  - assert (H : In m0 (List.filter
                         (fun m => negb (carries_excluded_genre m)) results)).
    { apply filter_In. rewrite Hclean0. auto. }
    rewrite Hk in H. destruct H.
  - rewrite <- Hk. intros H%filter_In. destruct H as [Hin Hneg].
    apply negb_true_iff in Hneg. auto.
Qed.

(** X2: when the answer matched holds a candidate without excluded genre,
    the id returned belongs to a candidate without excluded genre: a talk
    show, a television movie or a documentary is returned only if the
    answer holds nothing else. *)
Theorem excluded_genre_only_as_last_resort (P : provider)
    (title_cn title_en : string) (year : option Z)
    (log log' : list request) (i : Z) :
  tmdb_search P title_cn title_en year log = (Ok (Some i), log') ->
  exists history req results,
    log' = (history ++ [req])%list
    /\ answer (P history req) = Ok results
    /\ ((exists m0, In m0 results /\ carries_excluded_genre m0 = false) ->
        exists m, In m results /\ m_id m = Some i
                  /\ carries_excluded_genre m = false).
Proof.
  intros H.
  destruct (tmdb_search_some _ _ _ _ _ _ _ H)
    as (pre & req & skipped & results & _ & -> & _ & Hans & _ & Htiers).
  exists (log ++ pre)%list, req, results.
  rewrite app_assoc. split; [reflexivity|]. split; [exact Hans|].
  intros (m0 & Hin0 & Hclean0).
  destruct (match_tiers_some _ _ _ _ _ Htiers) as (m & Hin & Hi).
  destruct (kept_movies_clean results m0 Hin0 Hclean0 m Hin). eauto.
Qed.

Lemma excluded_genre_only_as_last_resort_witness :
  let results := [Samples.candidate 1 "X" "E" "2009-07-31" [99];
                  Samples.candidate 2 "Other" "O" "2001-01-01" [18]] in
  exists history req results',
    [Request "X" (Some 2009)] = (history ++ [req])%list
    /\ answer (Samples.always results history req) = Ok results'
    /\ ((exists m0, In m0 results' /\ carries_excluded_genre m0 = false) ->
        exists m, In m results' /\ m_id m = Some 2
                  /\ carries_excluded_genre m = false).
Proof.
  intros results.
  apply (excluded_genre_only_as_last_resort (Samples.always results)
           "X" "E" (Some 2009) []).
  reflexivity.
Defined.

Lemma or_else_none (r next : result (option Z)) :
  or_else r next = Ok None -> r = Ok None /\ next = Ok None.
Proof. destruct r as [[j|]|e]; simpl; try discriminate; auto. Qed.

Lemma tier2_none (year : option Z) (ms : list movie) :
  tier2 year ms = Ok None ->
  forall m, In m ms -> year_matches year m = false.
Proof.
  induction ms as [|m ms IH]; simpl; [intros _ m []|].
  destruct (slice4 (get (m_release_date m) "")) as [d|] eqn:Hd;
    [|discriminate].
  simpl. apply slice4_ok in Hd. subst.
  destruct (String.eqb _ _) eqn:Htest.
  - intros H. destruct (movie_id_not_none m H).
  - intros H m' [<-|Hin]; [exact Htest|exact (IH H m' Hin)].
Qed.

Lemma tier3_none (title_cn title_en : string) (ms : list movie) :
  tier3 title_cn title_en ms = Ok None ->
  forall m, In m ms -> title_matches title_cn title_en m = false.
Proof.
  induction ms as [|m ms IH]; simpl; [intros _ m []|].
  destruct (strip_lower (get (m_title m) "")) as [t|] eqn:Ht;
    [|discriminate].
  destruct (strip_lower (get (m_original_title m) "")) as [o|] eqn:Ho;
    [|discriminate].
  simpl. apply strip_lower_ok in Ht, Ho. subst.
  destruct (title_eq _ _ _ _) eqn:Htest.
  - intros H. destruct (movie_id_not_none m H).
  - intros H m' [<-|Hin]; [exact Htest|exact (IH H m' Hin)].
Qed.

(** X3: under a year constraint, when a kept candidate has the year of
    the query, the id returned is that of a kept candidate of that year:
    a candidate of the right year goes before an exact title of another
    year. *)
Theorem year_match_goes_first (title_cn title_en : string)
    (year : option Z) (results : list movie) (i : Z) (m0 : movie) :
  truthy_int year = true ->
  pick_match title_cn title_en year results = Ok (Some i) ->
  In m0 (kept_movies results) ->
  year_matches year m0 = true ->
  exists m, In m (kept_movies results) /\ m_id m = Some i
            /\ year_matches year m = true.
Proof.
  intros Hy Hpick Hin0 Hyear0.
  apply pick_match_some in Hpick as [_ Htiers].
  unfold match_tiers in Htiers. rewrite Hy in Htiers.
  apply or_else_some in Htiers as [H12|[H12 _]].
  - apply or_else_some in H12 as [H1|[_ H2]].
    + destruct (tier1_some _ _ _ _ _ H1) as (m & Hin & Hi & Hm).
      unfold title_year_matches in Hm. apply andb_prop in Hm as [Hm _].
      eauto.
    + destruct (tier2_some _ _ _ H2) as (m & Hin & Hi & Hm). eauto.
  - apply or_else_none in H12 as [_ H2].
    rewrite (tier2_none _ _ H2 m0 Hin0) in Hyear0. discriminate.
Qed.

Lemma year_match_goes_first_witness :
  let results := [Samples.candidate 1 "The Film" "F" "1980-01-01" [];
                  Samples.candidate 2 "Other" "O" "1993-06-06" []] in
  exists m, In m (kept_movies results) /\ m_id m = Some 2
            /\ year_matches (Some 1993) m = true.
Proof.
  intros results.
  apply (year_match_goes_first "The Film" "" (Some 1993) results 2
           (Samples.candidate 2 "Other" "O" "1993-06-06" []));
    [reflexivity|reflexivity|simpl; tauto|reflexivity].
Defined.

(** X4: when the year tiers do not decide (no year constraint, or no kept
    candidate of that year) and a kept candidate matches a title exactly,
    the id returned is that of a kept candidate with an exact title: the
    order of the provider is overridden. *)
Theorem exact_title_goes_before_order (title_cn title_en : string)
    (year : option Z) (results : list movie) (i : Z) (m0 : movie) :
  (truthy_int year = false
   \/ forall m, In m (kept_movies results) -> year_matches year m = false) ->
  pick_match title_cn title_en year results = Ok (Some i) ->
  In m0 (kept_movies results) ->
  title_matches title_cn title_en m0 = true ->
  exists m, In m (kept_movies results) /\ m_id m = Some i
            /\ title_matches title_cn title_en m = true.
Proof.
  intros Hyear Hpick Hin0 Htitle0.
  apply pick_match_some in Hpick as [_ Htiers].
  unfold match_tiers in Htiers.
  apply or_else_some in Htiers as [H12|[_ H345]].
  - destruct (truthy_int year); [|discriminate].
    destruct Hyear as [Hyear|Hyear]; [discriminate|].
    apply or_else_some in H12 as [H1|[_ H2]].
    + destruct (tier1_some _ _ _ _ _ H1) as (m & Hin & Hi & Hm).
      unfold title_year_matches in Hm. apply andb_prop in Hm as [_ Hm].
      eauto.
    + destruct (tier2_some _ _ _ H2) as (m & Hin & _ & Hm).
      rewrite (Hyear m Hin) in Hm. discriminate.
  - apply or_else_some in H345 as [H3|[H3 _]].
    + destruct (tier3_some _ _ _ _ H3) as (m & Hin & Hi & Hm). eauto.
    + rewrite (tier3_none _ _ _ H3 m0 Hin0) in Htitle0. discriminate.
Qed.

Lemma exact_title_goes_before_order_witness :
  let results := [Samples.candidate 1 "The Film 2" "F2" "1980-01-01" [];
                  Samples.candidate 2 "the film" "F" "1993-06-06" []] in
  exists m, In m (kept_movies results) /\ m_id m = Some 2
            /\ title_matches " The Film" "" m = true.
Proof.
  intros results.
  apply (exact_title_goes_before_order " The Film" "" None results 2
           (Samples.candidate 2 "the film" "F" "1993-06-06" []));
    [left; reflexivity|reflexivity|simpl; tauto|reflexivity].
Defined.

(** ** Unmatched queries and the number of requests *)

Lemma split_snoc {A} (pre : list A) (last : A) :
  forall (p : list A) (r : A) (q : list A),
  (pre ++ [last])%list = (p ++ r :: q)%list ->
  (p = pre /\ r = last /\ q = [])
  \/ exists q', pre = (p ++ r :: q')%list.
Proof.
  induction pre as [|a pre IH]; intros p r q H.
  - destruct p as [|b p]; simpl in H.
    + injection H as <- <-. auto.
    + injection H as _ H. destruct p; discriminate H.
  - destruct p as [|b p]; simpl in H.
    + injection H as <- H. right. exists pre. reflexivity.
    + injection H as <- H.
      destruct (IH p r q H) as [(-> & -> & ->)|[q' ->]]; [left|right]; eauto.
Qed.

(** X5: with a provider that does not raise and sends well-formed
    candidates, [tmdb_search] returns [None] only when every attempt of
    the query was made and answered with no candidate: one candidate in
    any answer reached is enough for an id. *)
Theorem unmatched_only_if_all_empty (P : provider)
    (title_cn title_en : string) (year : option Z)
    (log log' : list request) :
  well_behaved P ->
  tmdb_search P title_cn title_en year log = (Ok None, log') ->
  log' = (log ++ spec_attempts title_cn title_en year)%list
  /\ forall pre req post,
     spec_attempts title_cn title_en year = (pre ++ req :: post)%list ->
     answer (P (log ++ pre)%list req) = Ok [].
Proof.
  intros HP.
  destruct (spec_cascade_issued P _
              (spec_attempts_not_nil title_cn title_en year) log)
    as (pre & req & skipped & Heq & Hrun & Hpre & Hlast).
  rewrite tmdb_search_cascade, cascade_spec, Hrun. simpl.
  destruct (well_behaved_answer P HP (log ++ pre)%list req)
    as (results & Hans & Hwf).
  rewrite Hans in *. simpl.
  destruct (pick_match_well_formed title_cn title_en year results Hwf)
    as [[-> ->]|(m & i & _ & _ & ->)]; [|discriminate].
  intros [= <-]. rewrite (Hlast eq_refl) in Heq. rewrite Heq.
  split; [reflexivity|].
  intros p r q Hsplit.
  destruct (split_snoc pre req p r q Hsplit) as [(-> & -> & _)|[q' Hq']].
  - exact Hans.
  - exact (Hpre p r q' Hq').
Qed.

Lemma unmatched_only_if_all_empty_witness :
  answer (Samples.by_request []
            [Request "V" (Some 2000); Request "W" (Some 2000)]
            (Request "V" None))
  = Ok [].
Proof.
  refine (proj2 (unmatched_only_if_all_empty (Samples.by_request [])
                   "V" "/ W" (Some 2000) [] _ _ _)
            [Request "V" (Some 2000); Request "W" (Some 2000)]
            (Request "V" None) [Request "W" None] _).
  - intros log req. unfold Samples.by_request.
    destruct (_ && _); reflexivity.
  - reflexivity.
  - reflexivity.
Defined.

Lemma spec_attempts_length (title_cn title_en : string) (year : option Z) :
  (length (spec_attempts title_cn title_en year) <= 4)%nat
  /\ (title_en = "" ->
      length (spec_attempts title_cn title_en year) = 2%nat).
Proof.
  unfold spec_attempts. split.
  - destruct (_ && _); simpl; lia.
  - intros ->. reflexivity.
Qed.

(** The requests of one query: the log grows by a prefix of the attempts
    that is not empty. *)
Lemma tmdb_search_issued (P : provider) (title_cn title_en : string)
    (year : option Z) (log : list request) :
  exists issued skipped,
    spec_attempts title_cn title_en year = (issued ++ skipped)%list
    /\ issued <> []
    /\ snd (tmdb_search P title_cn title_en year log)
       = (log ++ issued)%list.
Proof.
  destruct (spec_cascade_issued P _
              (spec_attempts_not_nil title_cn title_en year) log)
    as (pre & req & skipped & Heq & Hrun & _ & _).
  exists (pre ++ [req])%list, skipped.
  rewrite tmdb_search_cascade, cascade_spec, Hrun, <- app_assoc.
  repeat split; [exact Heq|destruct pre; discriminate].
Qed.

(** X6: one call of [tmdb_search] keeps the history and adds between one
    and four requests to it, and at most two when the foreign title is
    empty. *)
Theorem tmdb_search_request_budget (P : provider)
    (title_cn title_en : string) (year : option Z) (log : list request) :
  exists issued,
    snd (tmdb_search P title_cn title_en year log) = (log ++ issued)%list
    /\ (1 <= length issued <= 4)%nat
    /\ (title_en = "" -> (length issued <= 2)%nat).
Proof.
  destruct (tmdb_search_issued P title_cn title_en year log)
    as (issued & skipped & Heq & Hne & Hlog).
  destruct (spec_attempts_length title_cn title_en year) as [H4 H2].
  rewrite Heq, length_app in H4, H2.
  exists issued. split; [exact Hlog|]. split.
  - destruct issued; [congruence|simpl in *; lia].
  - intros Hen. specialize (H2 Hen). lia.
Qed.

Lemma tmdb_search_request_budget_witness :
  exists issued,
    snd (tmdb_search Samples.down "X" "" (Some 1994) [Request "W" None])
    = ([Request "W" None] ++ issued)%list
    /\ (1 <= length issued <= 4)%nat
    /\ (length issued <= 2)%nat.
Proof.
  destruct (tmdb_search_request_budget Samples.down "X" "" (Some 1994)
              [Request "W" None]) as (issued & Hlog & Hlen & Hen).
  exists issued. split; [exact Hlog|]. split; [exact Hlen|].
  exact (Hen eq_refl).
Defined.

(** X7: for a query without year constraint the third and fourth searches
    repeat the first and second requests. With a provider whose answers
    do not depend on the history they find nothing new: an id comes from
    one of the first two requests. *)
Theorem no_year_retries_find_nothing (P : provider)
    (title_cn title_en : string) (year : option Z)
    (log log' : list request) (i : Z) :
  (forall history history' req, P history req = P history' req) ->
  truthy_int year = false ->
  tmdb_search P title_cn title_en year log = (Ok (Some i), log') ->
  exists issued,
    log' = (log ++ issued)%list /\ (length issued <= 2)%nat.
Proof.
  intros Hstateless Hy H.
  destruct (tmdb_search_some _ _ _ _ _ _ _ H)
    as (pre & req & skipped & results & Heq & -> & Hpre & Hans & Hne & _).
  exists (pre ++ [req])%list. split; [reflexivity|].
  assert (Hnew : forall p r q, pre = (p ++ r :: q)%list -> r <> req).
  { intros p r q Hp ->. specialize (Hpre p req q Hp).
    rewrite (Hstateless _ (log ++ pre)%list), Hans in Hpre.
    injection Hpre as ->. congruence. }
  unfold spec_attempts in Heq. rewrite Hy in Heq.
  destruct (_ && _); simpl in Heq.
  - destruct pre as [|a [|b [|c [|d pre]]]]; simpl in *; try lia.
    + injection Heq as <- <- <- _.
      destruct (Hnew [] _ [_] eq_refl eq_refl).
    + injection Heq as <- <- <- <- _.
      destruct (Hnew [_] _ [_] eq_refl eq_refl).
    + injection Heq as _ _ _ _ Heq. destruct pre; discriminate Heq.
  - destruct pre as [|a [|b pre]]; simpl in *; try lia.
    injection Heq as _ _ Heq. destruct pre; discriminate Heq.
Qed.

Lemma no_year_retries_find_nothing_witness :
  exists issued,
    [Request "X" None] = ([] ++ issued)%list /\ (length issued <= 2)%nat.
Proof.
  apply (no_year_retries_find_nothing
           (Samples.always [Samples.candidate 55 "A" "B" "1993-01-01" []])
           "X" "/ Y" None [] [Request "X" None] 55);
    reflexivity.
Defined.

(** ** Cleaning and normalizing titles *)

Lemma rstrip_by_cons (p : ascii -> bool) (c : ascii) (s : string) :
  rstrip_by p (String c s)
  = match rstrip_by p s with
    | EmptyString => if p c then EmptyString else String c EmptyString
    | r => String c r
    end.
Proof. reflexivity. Qed.

Lemma rstrip_by_idem (p : ascii -> bool) (s : string) :
  rstrip_by p (rstrip_by p s) = rstrip_by p s.
Proof.
  induction s as [|c s IH]; [reflexivity|].
  rewrite rstrip_by_cons. destruct (rstrip_by p s) as [|b r] eqn:Hr.
  - destruct (p c) eqn:Hc; [reflexivity|]. simpl. rewrite Hc. reflexivity.
  - rewrite rstrip_by_cons, IH. reflexivity.
Qed.

Lemma isspace_not_slash (c : ascii) :
  isspace c = true -> Ascii.eqb c "/" = false.
Proof.
  destruct (Ascii.eqb_spec c "/") as [->|]; [discriminate|reflexivity].
Qed.

(** X8: on a foreign title of the form the catalog page gives, a slash
    and one white space character before a text that is already trimmed,
    the cleaning returns that text. *)
Theorem clean_title_en_removes_prefix (c : ascii) (t : string) :
  isspace c = true ->
  strip t = t ->
  clean_title_en (String "/" (String c t)) = t.
Proof.
  intros Hc Ht. unfold clean_title_en.
  assert (Hr : rstrip_by isspace t = t).
  { rewrite <- Ht at 1. unfold strip. rewrite rstrip_by_idem. exact Ht. }
  assert (Hs : strip (String "/" (String c t))
               = match t with
                 | EmptyString => String "/"%char EmptyString
                 | _ => String "/"%char (String c t)
                 end).
  { unfold strip. change (lstrip_by isspace (String "/" (String c t)))
      with (String "/" (String c t)).
    rewrite !rstrip_by_cons, Hr, Hc. destruct t; reflexivity. }
  rewrite Hs. destruct t as [|b t']; [reflexivity|].
  unfold lstrip_slash. simpl lstrip_by.
  rewrite (isspace_not_slash c Hc).
  unfold strip. simpl lstrip_by. rewrite Hc. exact Ht.
Qed.

Lemma clean_title_en_removes_prefix_witness :
  clean_title_en (String "/" (String (ascii_of_N 160)
                                "The Shawshank Redemption"))
  = "The Shawshank Redemption".
Proof.
  apply (clean_title_en_removes_prefix (ascii_of_N 160)
           "The Shawshank Redemption");
    reflexivity.
Defined.

Lemma clean_title_en_no_outer_space_witness :
  last_char (clean_title_en " / x y ") = Some "y"%char
  /\ isspace "y" = false.
Proof.
  split; [reflexivity|].
  apply (clean_title_en_no_outer_space " / x y " "y").
  right. reflexivity.
Defined.

(** ** The query titles in the matching *)

Section TitleForms.
Variables (title_cn title_en title_cn' title_en' : string).
Hypothesis same_cn : lower (strip title_cn') = lower (strip title_cn).
Hypothesis same_en : lower (strip title_en') = lower (strip title_en).

Lemma title_eq_form (t o : string) :
  title_eq title_cn' title_en' t o = title_eq title_cn title_en t o.
Proof. unfold title_eq. rewrite same_cn, same_en. reflexivity. Qed.

Lemma title_in_form (t o : string) :
  title_in title_cn' title_en' t o = title_in title_cn title_en t o.
Proof. unfold title_in. rewrite same_cn, same_en. reflexivity. Qed.

Lemma tier1_form (year : option Z) (ms : list movie) :
  tier1 title_cn' title_en' year ms = tier1 title_cn title_en year ms.
Proof.
  induction ms as [|m ms IH]; [reflexivity|].
  simpl. destruct (strip_lower _) as [t|]; [|reflexivity].
  destruct (strip_lower _) as [o|]; [|reflexivity].
  destruct (slice4 _) as [d|]; [|reflexivity].
  simpl. rewrite title_eq_form, IH. reflexivity.
Qed.

Lemma tier3_form (ms : list movie) :
  tier3 title_cn' title_en' ms = tier3 title_cn title_en ms.
Proof.
  induction ms as [|m ms IH]; [reflexivity|].
  simpl. destruct (strip_lower _) as [t|]; [|reflexivity].
  destruct (strip_lower _) as [o|]; [|reflexivity].
  simpl. rewrite title_eq_form, IH. reflexivity.
Qed.

Lemma tier4_form (ms : list movie) :
  tier4 title_cn' title_en' ms = tier4 title_cn title_en ms.
Proof.
  induction ms as [|m ms IH]; [reflexivity|].
  simpl. destruct (strip_lower _) as [t|]; [|reflexivity].
  destruct (strip_lower _) as [o|]; [|reflexivity].
  simpl. rewrite title_in_form, IH. reflexivity.
Qed.

End TitleForms.

(** X10: the matching part reads the titles of the query in lower case
    and trimmed only: two queries whose titles agree up to case and outer
    white space get the same id, or the same exception, from the same
    candidates. *)
Theorem matching_ignores_case_and_outer_space
    (title_cn title_en title_cn' title_en' : string) (year : option Z)
    (results : list movie) :
  lower (strip title_cn') = lower (strip title_cn) ->
  lower (strip title_en') = lower (strip title_en) ->
  pick_match title_cn' title_en' year results
  = pick_match title_cn title_en year results.
Proof.
  intros Hcn Hen. unfold pick_match, match_tiers.
  destruct (negb (truthy_list results)); [reflexivity|].
  destruct (movie_results_of results) as [ms|]; [|reflexivity].
  simpl.
  rewrite (tier1_form _ _ _ _ Hcn Hen), (tier3_form _ _ _ _ Hcn Hen),
    (tier4_form _ _ _ _ Hcn Hen).
  reflexivity.
Qed.

Lemma matching_ignores_case_and_outer_space_witness :
  let results := [Samples.candidate 1 "Other" "O" "1994-01-01" [];
                  Samples.candidate 2 "The Film" "Le Film" "1993-01-01" []] in
  pick_match "  THE FILM" "le film " None results
  = pick_match "the film" "Le Film" None results.
Proof.
  intros results.
  apply (matching_ignores_case_and_outer_space
           "the film" "Le Film" "  THE FILM" "le film " None results);
    reflexivity.
Defined.

(** ** Accounts of the batch driver *)

(** What a run of the loop that ends adds to its accumulators. *)
Lemma main_loop_adds (P : provider) (movies : list catalog_movie) :
  forall (matched_movies : list (catalog_movie * Z)) (misses : list string)
         (log : list request) matched_movies' misses' log',
  main_loop P movies matched_movies misses log
  = (Ok (matched_movies', misses'), log') ->
  exists new_matched new_misses,
    matched_movies' = (matched_movies ++ new_matched)%list
    /\ misses' = (misses ++ new_misses)%list
    /\ (length new_matched + length new_misses)%nat = length movies
    /\ sublist (fst <$> new_matched) movies
    /\ sublist new_misses (miss_text <$> movies)
    /\ Forall (fun movie => snd movie <> 0) new_matched.
Proof.
  induction movies as [|movie rest IH];
    intros matched_movies misses log matched_movies' misses' log'.
  - simpl. unfold ret. intros [= <- <- <-].
    exists [], []. rewrite !app_nil_r. repeat split; constructor.
  - simpl. unfold bind.
    destruct (tmdb_search P (title_cn movie) (title_en movie) (year movie)
                log) as [[[i|]|e] log1]; [| |discriminate].
    + destruct (truthy_int (Some i)) eqn:Hi; intros H;
        destruct (IH _ _ _ _ _ _ H)
          as (nm & ns & -> & -> & Hlen & Hsub & Hsubs & Hall).
      * exists ((movie, i) :: nm), ns. rewrite <- !app_assoc. simpl.
        repeat split; try (rewrite Hlen; reflexivity).
        -- apply sublist_skip, Hsub.
        -- apply sublist_cons, Hsubs.
        -- constructor; [|exact Hall]. simpl. simpl in Hi.
           apply negb_true_iff, Z.eqb_neq in Hi. exact Hi.
      * exists nm, (miss_text movie :: ns). rewrite <- !app_assoc. simpl.
        repeat split; try lia; try assumption.
        -- apply sublist_cons, Hsub.
        -- apply sublist_skip, Hsubs.
    + intros H.
      destruct (IH _ _ _ _ _ _ H)
        as (nm & ns & -> & -> & Hlen & Hsub & Hsubs & Hall).
      exists nm, (miss_text movie :: ns). rewrite <- !app_assoc. simpl.
      repeat split; try lia; try assumption.
      * apply sublist_cons, Hsub.
      * apply sublist_skip, Hsubs.
Qed.

(** What a run of the loop that ends adds to its accumulators, entry by
    entry. *)
Lemma main_loop_outcomes (P : provider) (movies : list catalog_movie) :
  forall (matched_movies : list (catalog_movie * Z)) (misses : list string)
         (log : list request) matched_movies' misses' log',
  main_loop P movies matched_movies misses log
  = (Ok (matched_movies', misses'), log') ->
  length (Batch.entry_outcomes P movies log) = length movies
  /\ matched_movies'
     = (matched_movies
        ++ Batch.matched_of movies (Batch.entry_outcomes P movies log))%list
  /\ misses'
     = (misses
        ++ Batch.misses_of movies (Batch.entry_outcomes P movies log))%list
  /\ Forall (fun outcome => outcome <> Some 0)
       (Batch.entry_outcomes P movies log).
Proof.
  induction movies as [|movie rest IH];
    intros matched_movies misses log matched_movies' misses' log'.
  - simpl. unfold ret. intros [= <- <- <-].
    rewrite !app_nil_r. repeat split. constructor.
  - simpl. unfold bind.
    destruct (tmdb_search P (title_cn movie) (title_en movie) (year movie)
                log) as [[[i|]|e] log1]; [| |discriminate].
    + unfold Batch.outcome_of.
      destruct (truthy_int (Some i)) eqn:Hi; intros H;
        destruct (IH _ _ _ _ _ _ H) as (Hlen & -> & -> & Hall);
        unfold Batch.matched_of, Batch.misses_of; simpl;
        rewrite <- ?app_assoc; simpl.
      * repeat split; [rewrite Hlen; reflexivity|].
        constructor; [|exact Hall].
        simpl in Hi. apply negb_true_iff, Z.eqb_neq in Hi. congruence.
      * repeat split; [rewrite Hlen; reflexivity|].
        constructor; [discriminate|exact Hall].
    + unfold Batch.outcome_of. simpl truthy_int. cbv iota. intros H.
      destruct (IH _ _ _ _ _ _ H) as (Hlen & -> & -> & Hall).
      unfold Batch.matched_of, Batch.misses_of. simpl.
      rewrite <- ?app_assoc. simpl.
      repeat split; [rewrite Hlen; reflexivity|].
      constructor; [discriminate|exact Hall].
Qed.

(** One outcome for each entry gives as many matched entries and misses
    together as there are entries. *)
Lemma outcomes_lengths (movies : list catalog_movie) :
  forall outcomes : list (option Z),
  length outcomes = length movies ->
  (length (Batch.matched_of movies outcomes)
   + length (Batch.misses_of movies outcomes))%nat = length movies.
Proof.
  unfold Batch.matched_of, Batch.misses_of.
  induction movies as [|movie rest IH]; intros [|o outcomes] Hlen;
    try discriminate Hlen; [reflexivity|].
  simpl in Hlen. injection Hlen as Hlen. specialize (IH outcomes Hlen).
  destruct o as [i|]; simpl; rewrite ?length_app; simpl; lia.
Qed.

(** X11: when the run over a non-empty catalog ends, every entry has
    exactly one outcome, the one of its own call of [tmdb_search]: an id
    other than 0, or a miss (a returned [None] or id 0). The matched
    entries are exactly the entries with an id, each with its id and in
    the order of the catalog; the misses are exactly the texts of the
    other entries, in the order of the catalog; so both together are as
    many as the entries. *)
Theorem main_one_outcome_per_entry (P : provider)
    (movies : list catalog_movie) (log log' : list request)
    (matched_movies : list (catalog_movie * Z)) (misses : list string) :
  main P (Some movies) log = (Ok (matched_movies, misses), log') ->
  length (Batch.entry_outcomes P movies log) = length movies
  /\ matched_movies
     = Batch.matched_of movies (Batch.entry_outcomes P movies log)
  /\ misses = Batch.misses_of movies (Batch.entry_outcomes P movies log)
  /\ Forall (fun outcome => outcome <> Some 0)
       (Batch.entry_outcomes P movies log)
  /\ (length matched_movies + length misses)%nat = length movies.
Proof.
  destruct movies as [|movie rest]; [discriminate|].
  unfold main. intros H.
  destruct (main_loop_outcomes _ _ _ _ _ _ _ _ H)
    as (Hlen & Hmatched & Hmisses & Hall).
  simpl app in Hmatched, Hmisses.
  repeat split; try assumption.
  rewrite Hmatched, Hmisses. apply outcomes_lengths. exact Hlen.
Qed.

Lemma main_one_outcome_per_entry_witness :
  let movies := [CatalogMovie 1 "X" "" (Some 1994);
                 CatalogMovie 2 "V" "" None;
                 CatalogMovie 3 "X" "/ Y" None] in
  let P := Samples.by_request
             [Samples.candidate 278 "X" "" "1994-09-23" []] in
  Batch.entry_outcomes P movies [] = [Some 278; None; Some 278]
  /\ fst (main P (Some movies) [])
     = Ok ([(CatalogMovie 1 "X" "" (Some 1994), 278);
            (CatalogMovie 3 "X" "/ Y" None, 278)],
           ["V /  (None)"]).
Proof.
  intros movies P.
  destruct (main P (Some movies) []) as [r log'] eqn:Hrun.
  assert (Hr : r = Ok ([(CatalogMovie 1 "X" "" (Some 1994), 278);
                        (CatalogMovie 3 "X" "/ Y" None, 278)],
                       ["V /  (None)"]))
    by (vm_compute in Hrun; congruence).
  subst r.
  destruct (main_one_outcome_per_entry P movies [] log' _ _ Hrun)
    as (_ & Hmatched & Hmisses & _ & _).
  split; [reflexivity|]. simpl. rewrite Hmatched, Hmisses. reflexivity.
Defined.

(** X12: the collection built from the matched entries of a run that ends
    has one entry for each of them, with its id, native title and rank,
    so that the entries of the collection and the misses are together as
    many as the entries of the catalog. *)
Theorem collection_and_misses_cover_catalog (P : provider)
    (movies : list catalog_movie) (log log' : list request)
    (matched_movies : list (catalog_movie * Z)) (misses : list string) :
  main P (Some movies) log = (Ok (matched_movies, misses), log') ->
  Kometa.build_kometa_yaml matched_movies
  = map (fun movie : catalog_movie * Z =>
           Merge.KometaMovie (snd movie) (title_cn (fst movie))
             (rank (fst movie)))
      matched_movies
  /\ (length (Kometa.build_kometa_yaml matched_movies) + length misses)%nat
     = length movies.
Proof.
  intros H.
  assert (Hlen : (length matched_movies + length misses)%nat = length movies
                 /\ Forall (fun movie => snd movie <> 0) matched_movies).
  { destruct movies as [|movie rest]; [discriminate|].
    destruct (main_loop_adds _ _ _ _ _ _ _ _ H)
      as (nm & ns & -> & -> & Hlen & _ & _ & Hall).
    auto. }
  destruct Hlen as [Hlen Hall].
  assert (Hmap : Kometa.build_kometa_yaml matched_movies
                 = map (fun movie : catalog_movie * Z =>
                          Merge.KometaMovie (snd movie) (title_cn (fst movie))
                            (rank (fst movie)))
                     matched_movies).
  { clear Hlen H. unfold Kometa.build_kometa_yaml.
    induction Hall as [|[c i] l Hi _ IH]; [reflexivity|].
    simpl in *. rewrite IH.
    destruct (Z.eqb_spec i 0) as [->|_]; [congruence|reflexivity]. }
  split; [exact Hmap|].
  rewrite Hmap, length_map. exact Hlen.
Qed.

Lemma collection_and_misses_cover_catalog_witness :
  let movies := [CatalogMovie 1 "X" "" (Some 1994);
                 CatalogMovie 2 "V" "" None] in
  Kometa.build_kometa_yaml [(CatalogMovie 1 "X" "" (Some 1994), 278)]
  = [Merge.KometaMovie 278 "X" 1].
Proof.
  intros movies.
  apply (collection_and_misses_cover_catalog
           (Samples.by_request [Samples.candidate 278 "X" "" "1994-09-23" []])
           movies []
           [Request "X" (Some 1994); Request "X" None;
            Request "V" None; Request "V" None]
           [(CatalogMovie 1 "X" "" (Some 1994), 278)] ["V /  (None)"]).
  reflexivity.
Defined.




(** ** Titles that occur more than once, and the two scripts together *)

Lemma find_skip_prefix {A} (test : A -> bool) (skipped : list A) (a : A)
    (rest : list A) :
  Forall (fun x => test x = false) skipped ->
  test a = true ->
  List.find test (skipped ++ a :: rest)%list = Some a.
Proof.
  intros Hskipped Ha. induction Hskipped as [|x l Hx _ IH]; simpl.
  - rewrite Ha. reflexivity.
  - rewrite Hx. exact IH.
Qed.

Section MergeOrder.
Context {float : Type}.
Import Merge.

(** The id merged into a record whose title is that of the entry [k],
    when no entry after [k] has that title. *)
Lemma merge_data_entry (douban_movies : list (douban_movie float))
    (pre post : list kometa_movie) (k : kometa_movie)
    (n : nat) (movie : douban_movie float) :
  Forall (fun k' => k_title k' <> k_title k) post ->
  douban_movies !! n = Some movie ->
  title_cn movie = k_title k ->
  merged_tmdb_id
  <$> merge_data douban_movies (Some (pre ++ k :: post)%list) !! n
  = Some (Some (k_id k)).
Proof.
  intros Hpost Hn Htitle. unfold merge_data.
  rewrite list_lookup_fmap, Hn. simpl.
  rewrite build_mapping_lookup, rev_app_distr. simpl.
  rewrite <- app_assoc. simpl.
  rewrite (find_skip_prefix _ (rev post) k (rev pre)); [reflexivity| |].
  - apply List.Forall_forall. intros k' Hin. rewrite <- in_rev in Hin.
    rewrite List.Forall_forall in Hpost. specialize (Hpost k' Hin).
    apply String.eqb_neq. congruence.
  - rewrite Htitle. apply String.eqb_refl.
Qed.

(** X14: when several entries of the collection have the title of a
    record, the record gets the id of the last of them. *)
Theorem merge_data_last_entry_wins
    (douban_movies : list (douban_movie float))
    (pre post : list kometa_movie) (k : kometa_movie)
    (n : nat) (movie : douban_movie float) :
  Forall (fun k' => k_title k' <> k_title k) post ->
  douban_movies !! n = Some movie ->
  title_cn movie = k_title k ->
  exists merged,
    merge_data douban_movies (Some (pre ++ k :: post)%list) !! n
    = Some merged
    /\ merged_tmdb_id merged = Some (k_id k).
Proof.
  intros Hpost Hn Htitle.
  pose proof (merge_data_entry douban_movies pre post k n movie
                Hpost Hn Htitle) as H.
  destruct (merge_data douban_movies (Some (pre ++ k :: post)%list) !! n)
    as [merged|]; [|discriminate].
  exists merged. simpl in H. split; [reflexivity|congruence].
Qed.

End MergeOrder.

Lemma merge_data_last_entry_wins_witness :
  let movie := Merge.DoubanMovie 1 "A" "/ B" (Some 1994) (Some tt) "D" "E" in
  exists merged,
    Merge.merge_data [movie]
      (Some [Merge.KometaMovie 5 "A" 1; Merge.KometaMovie 6 "A" 9;
             Merge.KometaMovie 7 "C" 2]) !! 0%nat
    = Some merged
    /\ Merge.merged_tmdb_id merged = Some 6.
Proof.
  intros movie.
  apply (merge_data_last_entry_wins [movie]
           [Merge.KometaMovie 5 "A" 1] [Merge.KometaMovie 7 "C" 2]
           (Merge.KometaMovie 6 "A" 9) 0%nat movie).
  - repeat constructor. discriminate.
  - reflexivity.
  - reflexivity.
Defined.

Section RoundTrip.
Context {float : Type}.
Import Merge.

Lemma build_kometa_yaml_titles (matched_movies : list (catalog_movie * Z))
    (k : kometa_movie) :
  In k (Kometa.build_kometa_yaml matched_movies) ->
  exists movie, In movie matched_movies
                /\ k_title k = Tmdb.title_cn (fst movie)
                /\ k_id k = snd movie.
Proof.
  unfold Kometa.build_kometa_yaml. rewrite in_flat_map.
  intros (movie & Hin & Hk). exists movie. split; [exact Hin|].
  destruct (truthy_int _); [|destruct Hk].
  destruct Hk as [<-|[]]. split; reflexivity.
Qed.

(** X15: the two scripts in a row. For matched entries with distinct
    native titles, the merge of a catalog with the collection built from
    them gives each record whose title is that of a matched entry with a
    non-zero id exactly that id, and each record whose title is that of
    no matched entry no id. *)
Theorem merge_recovers_matched_ids
    (matched_movies : list (catalog_movie * Z))
    (douban_movies : list (douban_movie float))
    (n : nat) (movie : douban_movie float) :
  List.NoDup (map (fun m : catalog_movie * Z => Tmdb.title_cn (fst m))
                matched_movies) ->
  douban_movies !! n = Some movie ->
  exists merged,
    merge_data douban_movies
      (Some (Kometa.build_kometa_yaml matched_movies)) !! n
    = Some merged
    /\ (forall c i, In (c, i) matched_movies -> i <> 0 ->
        Tmdb.title_cn c = title_cn movie ->
        merged_tmdb_id merged = Some i)
    /\ ((forall m, In m matched_movies ->
         Tmdb.title_cn (fst m) <> title_cn movie) ->
        merged_tmdb_id merged = None).
Proof.
  intros Hnodup Hn.
  destruct (merge_data douban_movies
              (Some (Kometa.build_kometa_yaml matched_movies)) !! n)
    as [merged|] eqn:Hmerged.
  2:{ unfold merge_data in Hmerged.
      rewrite list_lookup_fmap, Hn in Hmerged. discriminate. }
  exists merged. split; [reflexivity|]. split.
  - intros c i Hin Hi Htitle.
    destruct (in_split _ _ Hin) as (m1 & m2 & ->).
    assert (Hbuild :
      Kometa.build_kometa_yaml (m1 ++ (c, i) :: m2)%list
      = (Kometa.build_kometa_yaml m1
         ++ KometaMovie i (Tmdb.title_cn c) (Tmdb.rank c)
         :: Kometa.build_kometa_yaml m2)%list).
    { unfold Kometa.build_kometa_yaml. rewrite flat_map_app. simpl.
      destruct (Z.eqb_spec i 0); [contradiction|reflexivity]. }
    pose proof (merge_data_entry douban_movies
                  (Kometa.build_kometa_yaml m1)
                  (Kometa.build_kometa_yaml m2)
                  (KometaMovie i (Tmdb.title_cn c) (Tmdb.rank c))
                  n movie) as Hentry.
    rewrite <- Hbuild, Hmerged in Hentry. simpl in Hentry.
    assert (Hsome : Some (merged_tmdb_id merged) = Some (Some i));
      [|congruence].
    apply Hentry; [|exact Hn|congruence].
    apply List.Forall_forall. intros k Hk Heq.
    destruct (build_kometa_yaml_titles m2 k Hk) as (m & Hm & Htm & _).
    rewrite map_app in Hnodup. simpl in Hnodup.
    apply NoDup_remove_2 in Hnodup. apply Hnodup.
    apply in_or_app. right. rewrite <- Heq, Htm.
    apply (in_map (fun m : catalog_movie * Z => Tmdb.title_cn (fst m))).
    exact Hm.
  - intros Hnone. unfold merge_data in Hmerged.
    rewrite list_lookup_fmap, Hn in Hmerged. simpl in Hmerged.
    injection Hmerged as <-. simpl.
    rewrite build_mapping_lookup, lookup_empty.
    destruct (List.find _ _) as [k|] eqn:Hfind; [|reflexivity].
    apply find_some in Hfind as [Hin Heq].
    rewrite <- in_rev in Hin. apply String.eqb_eq in Heq.
    destruct (build_kometa_yaml_titles _ k Hin) as (m & Hm & Htm & _).
    destruct (Hnone m Hm). congruence.
Qed.

End RoundTrip.

Lemma merge_recovers_matched_ids_witness :
  let hit := Merge.DoubanMovie 1 "X" "" (Some 1994) (Some tt) "D" "E" in
  let miss := Merge.DoubanMovie 2 "V" "" None None "F" "G" in
  exists merged,
    Merge.merge_data [hit; miss]
      (Some (Kometa.build_kometa_yaml
               [(CatalogMovie 1 "X" "" (Some 1994), 278)])) !! 0%nat
    = Some merged
    /\ Merge.merged_tmdb_id merged = Some 278.
Proof.
  intros hit miss.
  destruct (merge_recovers_matched_ids
              [(CatalogMovie 1 "X" "" (Some 1994), 278)]
              [hit; miss] 0%nat hit) as (merged & Hm & Hhit & _).
  - repeat constructor. simpl. tauto.
  - reflexivity.
  - exists merged. split; [exact Hm|].
    apply (Hhit (CatalogMovie 1 "X" "" (Some 1994)) 278);
      [simpl; tauto|discriminate|reflexivity].
Defined.

(** ** The statistics of the merge script *)

Section MergeMainFacts.
Context {float : Type}.
Import Merge MergeMain.

Lemma matched_count_no_collection
    (douban_movies : list (douban_movie float)) :
  matched_count (merge_data douban_movies None) = 0%nat.
Proof.
  unfold matched_count, merge_data.
  induction douban_movies as [|movie rest IH]; [reflexivity|].
  simpl. rewrite lookup_empty. simpl. exact IH.
Qed.

(** X16: how the merge script ends once the catalog is loaded. On a
    catalog without movies the merged file is saved, empty, and the match
    rate then raises a division by zero. On any other catalog the script
    ends with as many merged records as the catalog has, a matched count
    that does not exceed that number, and a matched count of zero when
    there is no collection. *)
Theorem merge_main_outcomes (douban_movies : list (douban_movie float))
    (tmdb_data : option (list kometa_movie)) :
  (douban_movies = [] ->
   main (Some douban_movies) tmdb_data = ZeroDivisionError [])
  /\ (douban_movies <> [] ->
      exists matched : nat,
        main (Some douban_movies) tmdb_data
        = Done (merge_data douban_movies tmdb_data)
            (length douban_movies) matched
        /\ (matched <= length douban_movies)%nat
        /\ (tmdb_data = None -> matched = 0%nat)).
Proof.
  split.
  - intros ->. reflexivity.
  - intros Hne. unfold main.
    assert (Hlen : length (merge_data douban_movies tmdb_data)
                   = length douban_movies)
      by (unfold merge_data; apply length_map).
    rewrite Hlen.
    destruct douban_movies as [|movie rest]; [congruence|].
    simpl Nat.eqb. cbv iota.
    exists (matched_count (merge_data (movie :: rest) tmdb_data)).
    split; [reflexivity|]. split.
    + rewrite <- Hlen. unfold matched_count. apply filter_length_le.
    + intros ->. apply matched_count_no_collection.
Qed.

End MergeMainFacts.

Lemma merge_main_outcomes_witness :
  MergeMain.main (float := unit) (Some []) None
  = MergeMain.ZeroDivisionError []
  /\ exists matched : nat,
       MergeMain.main
         (Some [Merge.DoubanMovie 1 "A" "" None (Some tt) "D" "E"]) None
       = MergeMain.Done
           (Merge.merge_data
              [Merge.DoubanMovie 1 "A" "" None (Some tt) "D" "E"] None)
           1 matched
       /\ (matched <= 1)%nat
       /\ (@None (list Merge.kometa_movie) = None -> matched = 0%nat).
Proof.
  split.
  - apply (proj1 (merge_main_outcomes [] None)). reflexivity.
  - apply (proj2 (merge_main_outcomes
                    [Merge.DoubanMovie 1 "A" "" None (Some tt) "D" "E"]
                    None)).
    discriminate.
Defined.

(** ** The crawler: the year of a movie and the count of the years *)

Section CrawlerFacts.
Import Crawler.

Lemma append_empty (pre post : string) :
  (pre ++ post)%string = "" -> post = "".
Proof. destruct pre; [trivial|discriminate]. Qed.

(** X17: the year taken from the text under a movie is its leftmost run
    of four digits: either the text has no four digits in a row and the
    year is the empty text, or the year is the four digits at the first
    position where four digits start. *)
Theorem find_year_leftmost (bd_text : string) :
  (find_year bd_text = ""
   /\ forall pre post, bd_text = (pre ++ post)%string ->
                       starts_with_year post = false)
  \/ exists pre post,
       bd_text = (pre ++ post)%string
       /\ starts_with_year post = true
       /\ find_year bd_text = slice_to 4 post
       /\ String.length (find_year bd_text) = 4%nat
       /\ forall p q, pre = (p ++ q)%string -> q <> "" ->
                      starts_with_year (q ++ post)%string = false.
Proof.
  induction bd_text as [|c rest IH].
  - left. split; [reflexivity|].
    intros pre post H. symmetry in H. apply append_empty in H.
    subst post. reflexivity.
  - destruct (starts_with_year (String c rest)) eqn:Hstart.
    + right. exists "", (String c rest).
      assert (Hfind : find_year (String c rest)
                      = slice_to 4 (String c rest))
        by (simpl find_year; simpl in Hstart; rewrite Hstart; reflexivity).
      rewrite Hfind. repeat split; try assumption.
      * destruct rest as [|b [|c' [|d rest']]]; try discriminate Hstart.
        reflexivity.
      * intros p q H Hq. symmetry in H. apply append_empty in H.
        contradiction.
    + assert (Hfind : find_year (String c rest) = find_year rest)
        by (simpl find_year; simpl in Hstart; rewrite Hstart; reflexivity).
      rewrite Hfind.
      destruct IH as [[Hnone Hall]|(pre & post & -> & Hpost & Hyear & Hlen
                                    & Hleft)].
      * left. split; [exact Hnone|].
        intros [|c' pre] post H.
        -- change (String c rest = post) in H. subst post. exact Hstart.
        -- change (String c rest = String c' (pre ++ post)%string) in H.
           injection H as _ H. exact (Hall pre post H).
      * right. exists (String c pre), post. repeat split; try assumption.
        intros [|c' p] q H Hq.
        -- change (String c pre = q) in H. subst q. exact Hstart.
        -- change (String c pre = String c' (p ++ q)%string) in H.
           injection H as _ H. exact (Hleft p q H Hq).
Qed.

Lemma find_year_leftmost_witness :
  (find_year "1 / 12345 (1994)" = ""
   /\ forall pre post, "1 / 12345 (1994)" = (pre ++ post)%string ->
                       starts_with_year post = false)
  \/ exists pre post,
       "1 / 12345 (1994)" = (pre ++ post)%string
       /\ starts_with_year post = true
       /\ find_year "1 / 12345 (1994)" = slice_to 4 post
       /\ String.length (find_year "1 / 12345 (1994)") = 4%nat
       /\ forall p q, pre = (p ++ q)%string -> q <> "" ->
                      starts_with_year (q ++ post)%string = false.
Proof. exact (find_year_leftmost "1 / 12345 (1994)"). Defined.

Lemma digit_value_range (c : ascii) :
  isdigit c = true -> 0 <= digit_value c <= 9.
Proof.
  unfold isdigit, digit_value. intros H.
  apply andb_prop in H as [H1 H2].
  apply N.leb_le in H1, H2. lia.
Qed.

Lemma find_year_digits (bd_text : string) :
  find_year bd_text = ""
  \/ exists a b c d,
       find_year bd_text = String a (String b (String c (String d "")))
       /\ isdigit a = true /\ isdigit b = true
       /\ isdigit c = true /\ isdigit d = true.
Proof.
  induction bd_text as [|x rest IH]; [left; reflexivity|].
  destruct (starts_with_year (String x rest)) eqn:Hstart.
  - right. simpl find_year. simpl in Hstart. rewrite Hstart.
    destruct rest as [|b [|c [|d rest']]]; try discriminate Hstart.
    apply andb_prop in Hstart as [Hstart Hd].
    apply andb_prop in Hstart as [Hstart Hc].
    apply andb_prop in Hstart as [Ha Hb].
    exists x, b, c, d. simpl. auto.
  - simpl find_year. simpl in Hstart. rewrite Hstart. exact IH.
Qed.

(** X18: the year the crawler saves for a movie is [None] or an integer
    from 0 to 9999, and it is [None] exactly when the text under the movie
    has no four digits in a row. *)
Theorem saved_year_range (bd_text : string) :
  (saved_year (find_year bd_text) = None /\ find_year bd_text = "")
  \/ exists y, saved_year (find_year bd_text) = Some y /\ 0 <= y <= 9999.
Proof.
  destruct (find_year_digits bd_text)
    as [->|(a & b & c & d & -> & Ha & Hb & Hc & Hd)].
  - left. split; reflexivity.
  - right. eexists. split; [reflexivity|].
    apply digit_value_range in Ha, Hb, Hc, Hd.
    simpl int_digits. lia.
Qed.

(** The count of a year after the loop, from any start of the counts. *)
Lemma year_count_fold (years : list string) (y : string) :
  forall counts : gmap string nat,
  fold_left
    (fun year_count year =>
       <[year := (default 0%nat (year_count !! year) + 1)%nat]> year_count)
    years counts !! y
  = match count_occ string_dec years y with
    | O => counts !! y
    | n => Some (default 0%nat (counts !! y) + n)%nat
    end.
Proof.
  induction years as [|x years IH]; intros counts; [reflexivity|].
  simpl fold_left. rewrite IH. simpl count_occ.
  destruct (string_dec x y) as [->|Hne].
  - rewrite lookup_insert_eq. simpl.
    destruct (count_occ string_dec years y); f_equal; lia.
  - rewrite lookup_insert_ne by exact Hne. reflexivity.
Qed.

(** X19: after the loop of the statistics, [year_count] holds for each
    year the number of movies of that year, and no key for a year of no
    movie. *)
Theorem year_count_counts (years : list string) (y : string) :
  year_count years !! y
  = match count_occ string_dec years y with
    | O => None
    | n => Some n
    end.
Proof.
  unfold year_count. rewrite year_count_fold, lookup_empty. reflexivity.
Qed.

End CrawlerFacts.
